(** * Task manager API: access control and query scoping

    A shallow embedding of the Django REST views of the task manager
    (accounts/ and tasks/), with the database tables as lists of rows in
    insertion order and every view as a function from the caller, the
    request and the database to a response and the new database.

    Conventions
    - Python integers (primary keys, counts, page numbers) are [Z].
    - A [DateTimeField] is a [Z]: microseconds since the epoch, UTC.
      A date (the bounds of the [created_at] range filter) is a day number.
    - A Python [str] is the [string] of the bytes of its UTF-8 encoding.
    - [obj.user == request.user] is Django's model equality: equality of
      primary keys.  The foreign key [Task.user] is stored as that key.
    - A view takes [request.user], the authenticated caller, as an
      argument: the requests considered carry valid credentials.
    - Behaviour inherited from the frameworks (rest_framework generics,
      django_filters, the Django paginator) is embedded next to the
      attribute of the view that selects it, and named after the framework
      function it stands for. *)

From stdpp Require Import base decidable option list strings gmap sorting.
From Stdlib Require Import ZArith QArith Qround Qabs Lqa Lia.

#[local] Open Scope string_scope.
#[local] Open Scope Z_scope.

(** ** Strings: the [icontains] lookup *)

(** ASCII lower-casing, the case folding the [icontains] lookup performs on
    both operands (SQL [LIKE], which folds the letters A to Z). *)
Definition lower_ascii (c : Ascii.ascii) : Ascii.ascii :=
  let n := Ascii.N_of_ascii c in
  if ((65 <=? n) && (n <=? 90))%N then Ascii.ascii_of_N (n + 32) else c.

Fixpoint lower (s : string) : string :=
  match s with
  | EmptyString => EmptyString
  | String c s' => String (lower_ascii c) (lower s')
  end.

Fixpoint startswith (s p : string) : bool :=
  match p, s with
  | EmptyString, _ => true
  | String _ _, EmptyString => false
  | String a p', String b s' => if Ascii.eqb a b then startswith s' p' else false
  end.

(** [contains s p]: [p] occurs in [s] as a contiguous substring. *)
Fixpoint contains (s p : string) : bool :=
  startswith s p ||
  match s with
  | EmptyString => false
  | String _ s' => contains s' p
  end.

Definition icontains (s p : string) : bool := contains (lower s) (lower p).

(** ** Strings: [str.strip()] *)

Definition utf8 (bytes : list N) : string :=
  foldr (λ n s, String (Ascii.ascii_of_N n) s) EmptyString bytes.

(** The characters [str.isspace] holds of, each as the bytes of its UTF-8
    encoding: U+0009 to U+000D, U+001C to U+0020, U+0085, U+00A0, U+1680,
    U+2000 to U+200A, U+2028, U+2029, U+202F, U+205F and U+3000. *)
Definition whitespace : list string :=
  utf8 <$>
    [ [9]; [10]; [11]; [12]; [13]; [28]; [29]; [30]; [31]; [32];
      [194; 133]; [194; 160]; [225; 154; 128];
      [226; 128; 128]; [226; 128; 129]; [226; 128; 130]; [226; 128; 131];
      [226; 128; 132]; [226; 128; 133]; [226; 128; 134]; [226; 128; 135];
      [226; 128; 136]; [226; 128; 137]; [226; 128; 138];
      [226; 128; 168]; [226; 128; 169]; [226; 128; 175];
      [226; 129; 159]; [227; 128; 128] ]%N.

(** [removeprefix p s]: what is left of [s] after its prefix [p]. *)
Fixpoint removeprefix (p s : string) : option string :=
  match p, s with
  | EmptyString, _ => Some s
  | String _ _, EmptyString => None
  | String a p', String b s' => if Ascii.eqb a b then removeprefix p' s' else None
  end.

(** [skip_char chars s]: [s] without its first character, when that is
    one of [chars]. *)
Definition skip_char (chars : list string) (s : string) : option string :=
  foldr (λ c r, match removeprefix c s with Some rest => Some rest | None => r end)
        None chars.

(** Leading characters of [chars] are dropped one by one; [fuel] bounds
    their number, the length of the string is enough. *)
Fixpoint lstrip_chars (chars : list string) (fuel : nat) (s : string) : string :=
  match fuel with
  | O => s
  | S fuel' =>
      match skip_char chars s with
      | Some rest => lstrip_chars chars fuel' rest
      | None => s
      end
  end.

Definition lstrip (s : string) : string :=
  lstrip_chars whitespace (String.length s) s.

(** The same from the end: on the reversed bytes, with each encoding
    reversed. *)
Definition rstrip (s : string) : string :=
  String.rev (lstrip_chars (String.rev <$> whitespace) (String.length s)
                (String.rev s)).

Definition strip (s : string) : string := rstrip (lstrip s).

(** ["\x00" in value], the test of Django's
    [ProhibitNullCharactersValidator], which rest_framework adds to every
    [CharField]. *)
Definition has_nul (s : string) : bool := contains s (String Ascii.zero EmptyString).

(** The errors of one serializer field. *)
Definition errors_of {A} (r : A + list string) : list string :=
  match r with inl _ => [] | inr e => e end.

(** ** accounts/models.py *)

Record User := mkUser {
  user_id : Z;
  username : string;
  email : string;
  password : string;          (* the hash stored by [create_user] *)
  role : string;
  user_created_at : Z;
  user_updated_at : Z;
}.

Definition ROLE_CHOICES : list (string * string) :=
  [("admin", "Admin"); ("user", "Regular User")].

(** ** tasks/models.py *)

(** Modelled from the spec: tasks/models.py is not among the sources.  The
    fields are the ones the serializers, the filters and the tests name
    (section 3 of the specification): [title] required and non-empty,
    [description] optional, [completed] defaulting to false, the owner as a
    foreign key to [User], and the two automatic timestamps.  The
    specification gives the two text fields no maximal length, and none is
    taken here. *)
Record Task := mkTask {
  task_id : Z;
  title : string;
  description : string;
  completed : bool;
  created_at : Z;
  updated_at : Z;
  task_user : Z;              (* user_id of the owner *)
}.

#[global] Instance User_eq_dec : EqDecision User.
Proof. solve_decision. Defined.

#[global] Instance Task_eq_dec : EqDecision Task.
Proof. solve_decision. Defined.

(** ** The database *)

Record DB := mkDB {
  users : list User;          (* accounts_user, in insertion order *)
  tasks : list Task;          (* tasks_task, in insertion order *)
  next_user_id : Z;           (* AUTOINCREMENT sequences *)
  next_task_id : Z;
}.

Definition empty_db : DB :=
  {| users := []; tasks := []; next_user_id := 1; next_task_id := 1 |}.

Definition set_tasks (db : DB) (ts : list Task) : DB :=
  {| users := users db; tasks := ts;
     next_user_id := next_user_id db; next_task_id := next_task_id db |}.

(** A queryset, once evaluated: the rows in result order. *)
Abbreviation QuerySet := (list Task).

(** Modelled from the spec: the default ordering of the [Task] model
    (its [Meta.ordering], in the missing tasks/models.py) is [created_at]
    descending; rows with equal [created_at] keep their insertion order. *)
Fixpoint insert_created_desc (t : Task) (l : QuerySet) : QuerySet :=
  match l with
  | [] => [t]
  | x :: l' =>
      if created_at x <=? created_at t then t :: x :: l'
      else x :: insert_created_desc t l'
  end.

Definition order_by_created_desc (l : list Task) : QuerySet :=
  foldr insert_created_desc [] l.

Module TaskManager.
(** [queryset.count()] *)
Definition count (qs : QuerySet) : Z := Z.of_nat (length qs).

(** [Task.objects.all()] *)
Definition all (db : DB) : QuerySet := order_by_created_desc (tasks db).

(** [Task.objects.filter(user=u)] *)
Definition filter_user (u : User) (db : DB) : QuerySet :=
  filter (λ t, task_user t = user_id u) (all db).
End TaskManager.

(** ** HTTP *)

Inductive Method := GET | HEAD | OPTIONS | POST | PUT | PATCH | DELETE.

#[global] Instance Method_eq_dec : EqDecision Method.
Proof. solve_decision. Defined.

(** [rest_framework.permissions.SAFE_METHODS] *)
Definition SAFE_METHODS : list Method := [GET; HEAD; OPTIONS].

(** What the caller observes: the status, and the body of a success.
    An error body carries no data of the request ("Not found.",
    "Invalid page."), except the names of the rejected fields of a 400. *)
Inductive Response (A : Type) : Type :=
  | HTTP_200_OK (data : A)
  | HTTP_201_CREATED (data : A)
  | HTTP_204_NO_CONTENT
  | HTTP_400_BAD_REQUEST (errors : list string)
  | HTTP_403_FORBIDDEN
  | HTTP_404_NOT_FOUND
  | HTTP_500_INTERNAL_SERVER_ERROR.

Arguments HTTP_200_OK {A} data.
Arguments HTTP_201_CREATED {A} data.
Arguments HTTP_204_NO_CONTENT {A}.
Arguments HTTP_400_BAD_REQUEST {A} errors.
Arguments HTTP_403_FORBIDDEN {A}.
Arguments HTTP_404_NOT_FOUND {A}.
Arguments HTTP_500_INTERNAL_SERVER_ERROR {A}.

(** ** accounts/serializers.py and accounts/views.py *)

(** The parts of Django's authentication that registration calls and that
    live in the settings module and in django.contrib.auth. *)
Class AuthBackend := {
  validate_password : string → bool;     (* AUTH_PASSWORD_VALIDATORS *)
  valid_username : string → bool;        (* validators of AbstractUser.username *)
  valid_email : string → bool;           (* EmailField *)
  normalize_username : string → string;  (* AbstractBaseUser.normalize_username *)
  normalize_email : string → string;     (* BaseUserManager.normalize_email *)
  make_password : string → string;       (* the password hasher *)
}.

(** The body of a registration request, one entry per serializer field;
    [None] is a field the request leaves out.  [reg_html] tells a form
    (urlencoded or multipart, parsed to a [QueryDict]) from a JSON object:
    rest_framework's [Field.get_value] reads the two differently. *)
Record RegistrationData := mkRegistrationData {
  reg_html : bool;
  reg_username : option string;
  reg_email : option string;
  reg_password : option string;
  reg_password_confirm : option string;
  reg_role : option string;
}.

(** [validated_data] of [UserRegistrationSerializer] *)
Record RegistrationAttrs := mkRegistrationAttrs {
  attrs_username : string;
  attrs_email : string;
  attrs_password : string;
  attrs_password_confirm : string;
  attrs_role : string;
}.

Module UserRegistrationSerializer.
Section WithBackend.
Context `{AuthBackend}.

(** A required [CharField]: present, not blank once white space is
    trimmed, free of null characters and accepted by its validators; its
    value is the trimmed string. *)
Definition required_field (name : string) (v : option string)
    (ok : string → bool) : string + list string :=
  match v with
  | None => inr [name]
  | Some s =>
      if bool_decide (strip s = "") then inr [name]
      else if has_nul (strip s) then inr [name]
      else if ok (strip s) then inl (strip s) else inr [name]
  end.

(** The [UniqueValidator] of a unique column. *)
Definition unique_username (db : DB) (s : string) : bool :=
  bool_decide (Forall (λ u, username u ≠ s) (users db)).

Definition unique_email (db : DB) (s : string) : bool :=
  bool_decide (Forall (λ u, email u ≠ s) (users db)).

(** [Field.get_value] for [role], a field that is not required and may
    not be blank: in a form an empty value stands for a key that is left
    out; in a JSON object only a missing key does. *)
Definition role_value (data : RegistrationData) : option string :=
  match reg_role data with
  | Some r => if reg_html data && bool_decide (r = "") then None else Some r
  | None => None
  end.

(** The [role] field: [extra_kwargs = {"role": {"default": "user"}}] on a
    model field with [choices], that is a [ChoiceField] that is not
    required. *)
Definition role_field (v : option string) : string + list string :=
  match v with
  | None => inl "user"
  | Some r => if bool_decide (r ∈ ROLE_CHOICES.*1) then inl r else inr ["role"]
  end.

(** Field validation, every field reporting its own error. *)
Definition to_internal_value (db : DB) (data : RegistrationData)
    : RegistrationAttrs + list string :=
  let u := required_field "username" (reg_username data)
             (λ s, valid_username s && unique_username db s) in
  let e := required_field "email" (reg_email data)
             (λ s, valid_email s && unique_email db s) in
  let p := required_field "password" (reg_password data) validate_password in
  let c := required_field "password_confirm" (reg_password_confirm data)
             (λ _, true) in
  let r := role_field (role_value data) in
  match u, e, p, c, r with
  | inl u, inl e, inl p, inl c, inl r =>
      inl {| attrs_username := u; attrs_email := e; attrs_password := p;
             attrs_password_confirm := c; attrs_role := r |}
  | _, _, _, _, _ =>
      inr (errors_of u ++ errors_of e ++ errors_of p ++ errors_of c
           ++ errors_of r)%list
  end.

Definition validate (attrs : RegistrationAttrs) : RegistrationAttrs + list string :=
  if bool_decide (attrs_password attrs ≠ attrs_password_confirm attrs)
  then inr ["non_field_errors"]
  else inl attrs.

(** [serializer.is_valid()]: the fields first, then [validate]. *)
Definition is_valid (db : DB) (data : RegistrationData)
    : RegistrationAttrs + list string :=
  match to_internal_value db data with
  | inl attrs => validate attrs
  | inr e => inr e
  end.

(** [User.objects.create_user] on the validated data, after
    [validated_data.pop("password_confirm")].  [None] is the
    [IntegrityError] of a unique column. *)
Definition create (attrs : RegistrationAttrs) (now : Z) (db : DB)
    : option (User * DB) :=
  let user := {| user_id := next_user_id db;
                 username := normalize_username (attrs_username attrs);
                 email := normalize_email (attrs_email attrs);
                 password := make_password (attrs_password attrs);
                 role := attrs_role attrs;
                 user_created_at := now;
                 user_updated_at := now |} in
  if unique_username db (username user) && unique_email db (email user) then
    Some (user, {| users := (users db ++ [user])%list; tasks := tasks db;
                   next_user_id := next_user_id db + 1;
                   next_task_id := next_task_id db |})
  else None.
End WithBackend.
End UserRegistrationSerializer.

Module RegisterView.
Section WithBackend.
Context `{AuthBackend}.

(** [permission_classes = [AllowAny]]: the view has no caller argument.
    The response carries the serialized user; the two tokens issued for
    it are left out of the body. *)
Definition create (data : RegistrationData) (now : Z) (db : DB)
    : Response User * DB :=
  match UserRegistrationSerializer.is_valid db data with
  | inr errors => (HTTP_400_BAD_REQUEST errors, db)
  | inl attrs =>
      match UserRegistrationSerializer.create attrs now db with
      | Some (user, db') => (HTTP_201_CREATED user, db')
      | None => (HTTP_500_INTERNAL_SERVER_ERROR, db)
      end
  end.
End WithBackend.
End RegisterView.

(** ** tasks/permissions.py *)

Module IsOwnerOrAdmin.
(** [BasePermission.has_permission], which the class does not override. *)
Definition has_permission (method : Method) (request_user : User) : bool := true.

Definition has_object_permission (method : Method) (request_user : User)
    (obj : Task) : bool :=
  (* Read permissions for any authenticated user *)
  if bool_decide (method ∈ SAFE_METHODS) then
    bool_decide (role request_user = "admin")
    || bool_decide (task_user obj = user_id request_user)
  (* Write permissions only to the owner or admin *)
  else
    bool_decide (role request_user = "admin")
    || bool_decide (task_user obj = user_id request_user).
End IsOwnerOrAdmin.

(** ** tasks/filters.py *)

(** The query string of a list request, one entry per parameter a client
    may send, already parsed to the type of the parameter: a value the
    form of the filter set does not accept (a malformed date or boolean, a
    text with a null character), which the filter backend answers with
    400, is outside the requests considered. *)
Record QueryParams := mkQueryParams {
  q_completed : option bool;
  q_title : option string;
  q_created_at_after : option Z;     (* a date: lower bound of the range *)
  q_created_at_before : option Z;    (* a date: upper bound of the range *)
  q_search : option string;
  q_ordering : option string;
  q_page : option Z;
}.

Definition with_search (s : string) (params : QueryParams) : QueryParams :=
  {| q_completed := q_completed params; q_title := q_title params;
     q_created_at_after := q_created_at_after params;
     q_created_at_before := q_created_at_before params;
     q_search := Some s; q_ordering := q_ordering params;
     q_page := q_page params |}.

Definition with_ordering (o : string) (params : QueryParams) : QueryParams :=
  {| q_completed := q_completed params; q_title := q_title params;
     q_created_at_after := q_created_at_after params;
     q_created_at_before := q_created_at_before params;
     q_search := q_search params; q_ordering := Some o;
     q_page := q_page params |}.

Definition with_page (n : Z) (params : QueryParams) : QueryParams :=
  {| q_completed := q_completed params; q_title := q_title params;
     q_created_at_after := q_created_at_after params;
     q_created_at_before := q_created_at_before params;
     q_search := q_search params; q_ordering := q_ordering params;
     q_page := Some n |}.

Definition no_params : QueryParams :=
  {| q_completed := None; q_title := None; q_created_at_after := None;
     q_created_at_before := None; q_search := None; q_ordering := None;
     q_page := None |}.

Definition MICROSECONDS_PER_DAY : Z := 86400000000.

(** [datetime.combine(date, time.min)] and [datetime.combine(date, time.max)],
    the bounds [DateRangeField] makes of the two dates. *)
Definition start_of_day (d : Z) : Z := d * MICROSECONDS_PER_DAY.
Definition end_of_day (d : Z) : Z := d * MICROSECONDS_PER_DAY + (MICROSECONDS_PER_DAY - 1).

Module TaskFilter.
(** [completed = django_filters.BooleanFilter()] *)
Definition completed_filter (v : option bool) (qs : QuerySet) : QuerySet :=
  match v with
  | None => qs
  | Some b => filter (λ t, completed t = b) qs
  end.

(** [title = django_filters.CharFilter(lookup_expr="icontains")]: the
    form field of the filter trims the parameter, and [Filter.filter]
    leaves the queryset as it is when the value is then empty. *)
Definition title_filter (v : option string) (qs : QuerySet) : QuerySet :=
  match v with
  | None => qs
  | Some s =>
      if bool_decide (strip s = "") then qs
      else filter (λ t, icontains (title t) (strip s) = true) qs
  end.

(** [created_at = django_filters.DateFromToRangeFilter()]: [range] when
    both bounds are given, [gte] or [lte] when one is. *)
Definition created_at_filter (after before : option Z) (qs : QuerySet) : QuerySet :=
  match after, before with
  | Some a, Some b =>
      filter (λ t, start_of_day a ≤ created_at t ∧ created_at t ≤ end_of_day b) qs
  | Some a, None => filter (λ t, start_of_day a ≤ created_at t) qs
  | None, Some b => filter (λ t, created_at t ≤ end_of_day b) qs
  | None, None => qs
  end.

(** [fields = ["completed", "title", "created_at"]]: the filters run in
    turn, each on the result of the one before. *)
Definition filter_queryset (params : QueryParams) (qs : QuerySet) : QuerySet :=
  created_at_filter (q_created_at_after params) (q_created_at_before params)
    (title_filter (q_title params)
      (completed_filter (q_completed params) qs)).
End TaskFilter.

(** [django_filters.rest_framework.DjangoFilterBackend], for a view whose
    [filterset_class] is [TaskFilter]. *)
Definition DjangoFilterBackend (params : QueryParams) (qs : QuerySet) : QuerySet :=
  TaskFilter.filter_queryset params qs.

(** ** tasks/serializers.py *)

(** The body of a create or update request.  The three entries the
    serializer declares are typed; [data_other] holds every other key the
    client sent ("user", "id", ...), with its value.  [data_html] tells a
    form (urlencoded or multipart, parsed to a [QueryDict]) from a JSON
    object. *)
Record TaskData := mkTaskData {
  data_html : bool;
  data_title : option string;
  data_description : option string;
  data_completed : option bool;
  data_other : gmap string string;
}.

Module TaskCreateUpdateSerializer.
(** [fields = ["title", "description", "completed"]] *)
Definition fields : list string := ["title"; "description"; "completed"].

Record validated_data := mkValidated {
  v_title : option string;
  v_description : option string;
  v_completed : option bool;
}.

(** rest_framework's [CharField]: the value is trimmed of white space; a
    blank value is an error unless the field allows it, and is then kept
    without further validation; any other value may hold no null
    character. *)
Definition char_field (name : string) (required allow_blank : bool)
    (v : option string) : option string + list string :=
  match v with
  | None => if required then inr [name] else inl None
  | Some s =>
      if bool_decide (strip s = "") then
        if allow_blank then inl (Some "") else inr [name]
      else if has_nul (strip s) then inr [name]
      else inl (Some (strip s))
  end.

(** rest_framework's [BooleanField]: a form has no way to send false, so
    a key missing from a form reads as [False]
    ([default_empty_html]), unless the update is partial. *)
Definition boolean_field (html partial : bool) (v : option bool) : option bool :=
  match v with
  | Some b => Some b
  | None => if html && negb partial then Some false else None
  end.

(** [title]: required unless the update is partial, never blank.
    [description] is optional and may be blank, [completed] is optional. *)
Definition is_valid (partial : bool) (data : TaskData) : validated_data + list string :=
  let t := char_field "title" (negb partial) false (data_title data) in
  let d := char_field "description" false true (data_description data) in
  let c := boolean_field (data_html data) partial (data_completed data) in
  match t, d with
  | inl t, inl d => inl {| v_title := t; v_description := d; v_completed := c |}
  | _, _ => inr (errors_of t ++ errors_of d)%list
  end.

(** [serializer.save(user=...)] with no instance: [Task.objects.create]. *)
Definition create (v : validated_data) (user : User) (now : Z) (db : DB) : Task * DB :=
  let t := {| task_id := next_task_id db;
              title := default "" (v_title v);
              description := default "" (v_description v);
              completed := default false (v_completed v);
              created_at := now;
              updated_at := now;
              task_user := user_id user |} in
  (t, {| users := users db; tasks := (tasks db ++ [t])%list;
         next_user_id := next_user_id db;
         next_task_id := next_task_id db + 1 |}).

(** [serializer.save()] with an instance: the validated attributes are
    set on it, and [instance.save()] stamps [updated_at]. *)
Definition set_attrs (v : validated_data) (now : Z) (instance : Task) : Task :=
  {| task_id := task_id instance;
     title := default (title instance) (v_title v);
     description := default (description instance) (v_description v);
     completed := default (completed instance) (v_completed v);
     created_at := created_at instance;
     updated_at := now;
     task_user := task_user instance |}.

Definition update (instance : Task) (v : validated_data) (now : Z) (db : DB)
    : Task * DB :=
  let t := set_attrs v now instance in
  (t, set_tasks db
        ((λ x, if bool_decide (task_id x = task_id instance) then t else x)
           <$> tasks db)).

(** [serializer.data]: the declared fields only. *)
Definition to_representation (t : Task) : string * string * bool :=
  (title t, description t, completed t).
End TaskCreateUpdateSerializer.

(** What a task view answers with: the full [TaskSerializer] rendering or
    the three fields of [TaskCreateUpdateSerializer]. *)
Inductive TaskBody :=
  | TaskRepr (t : Task)
  | TaskFieldsRepr (fields : string * string * bool).

(** ** Pagination *)

(** Modelled from the spec: the settings module (the [REST_FRAMEWORK]
    dictionary with the pagination class and [PAGE_SIZE]) is not among the
    sources.  The page size is the specification's 20; the envelope
    ([count], [next], [previous], [results]) and the [page] query parameter
    are the ones tests.PaginationTest reads, those of rest_framework's
    [PageNumberPagination], which is embedded here with the Django
    [Paginator] it drives. *)
Definition PAGE_SIZE : Z := 20.

Module Paginator.
Definition count (object_list : QuerySet) : Z := TaskManager.count object_list.

(** [ceil(hits / per_page)] with [hits = max(1, count)]
    ([orphans = 0], [allow_empty_first_page = True]). *)
Definition num_pages (object_list : QuerySet) (per_page : Z) : Z :=
  let hits := Z.max 1 (count object_list) in
  (hits + per_page - 1) / per_page.

(** [None] is [EmptyPage]. *)
Definition validate_number (object_list : QuerySet) (per_page number : Z)
    : option Z :=
  if number <? 1 then None
  else if number >? num_pages object_list per_page then None
  else Some number.

(** [object_list[bottom:top]] *)
Definition slice (object_list : QuerySet) (bottom top : Z) : QuerySet :=
  take (Z.to_nat (top - bottom)) (drop (Z.to_nat bottom) object_list).

Definition page (object_list : QuerySet) (per_page number : Z)
    : option (Z * QuerySet) :=
  match validate_number object_list per_page number with
  | None => None
  | Some number =>
      let bottom := (number - 1) * per_page in
      let top := bottom + per_page in
      let top := if top >=? count object_list then count object_list else top in
      Some (number, slice object_list bottom top)
  end.
End Paginator.

(** The body of a paginated answer.  [next] and [previous] are links in
    the HTTP answer; the page number each link points to stands for it. *)
Record Page := mkPage {
  count : Z;
  next : option Z;
  previous : option Z;
  results : list Task;
}.

Module PageNumberPagination.
(** [None] is the [NotFound("Invalid page.")] raised on [InvalidPage]. *)
Definition paginate_queryset (queryset : QuerySet) (params : QueryParams)
    : option Page :=
  let page_number := default 1 (q_page params) in
  match Paginator.page queryset PAGE_SIZE page_number with
  | None => None
  | Some (number, object_list) =>
      Some {| count := Paginator.count queryset;
              next := if number <? Paginator.num_pages queryset PAGE_SIZE
                      then Some (number + 1) else None;
              previous := if number >? 1 then Some (number - 1) else None;
              results := object_list |}
  end.
End PageNumberPagination.

(** ** tasks/views.py *)

(** The exceptions a generic view raises, and the response
    [rest_framework.views.exception_handler] makes of each. *)
Inductive APIException :=
  | Http404
  | NotFound
  | PermissionDenied
  | ValidationError (errors : list string)
  | MultipleObjectsReturned.

Definition exception_handler {A} (exc : APIException) : Response A :=
  match exc with
  | Http404 => HTTP_404_NOT_FOUND
  | NotFound => HTTP_404_NOT_FOUND
  | PermissionDenied => HTTP_403_FORBIDDEN
  | ValidationError errors => HTTP_400_BAD_REQUEST errors
  | MultipleObjectsReturned => HTTP_500_INTERNAL_SERVER_ERROR
  end.

Module TaskListCreateView.
Definition filter_backends : list (QueryParams → QuerySet → QuerySet) :=
  [DjangoFilterBackend].

(** Attributes that [rest_framework.filters.SearchFilter] and
    [rest_framework.filters.OrderingFilter] read from a view.  Neither
    backend is in [filter_backends]. *)
Definition search_fields : list string := ["title"; "description"].
Definition ordering_fields : list string := ["created_at"; "updated_at"; "title"].
Definition ordering : list string := ["-created_at"].

Definition get_queryset (request_user : User) (db : DB) : QuerySet :=
  if bool_decide (role request_user = "admin") then TaskManager.all db
  else TaskManager.filter_user request_user db.

(** [GenericAPIView.filter_queryset]: every backend of [filter_backends]
    in turn. *)
Definition filter_queryset (params : QueryParams) (queryset : QuerySet) : QuerySet :=
  foldl (λ qs backend, backend params qs) queryset filter_backends.

(** GET /tasks: [ListModelMixin.list]. *)
Definition get (request_user : User) (params : QueryParams) (db : DB)
    : Response Page :=
  let queryset := filter_queryset params (get_queryset request_user db) in
  match PageNumberPagination.paginate_queryset queryset params with
  | Some page => HTTP_200_OK page
  | None => exception_handler NotFound
  end.

(** Automatically set the user to the authenticated user when creating
    a task. *)
Definition perform_create (v : TaskCreateUpdateSerializer.validated_data)
    (request_user : User) (now : Z) (db : DB) : Task * DB :=
  TaskCreateUpdateSerializer.create v request_user now db.

(** POST /tasks: [CreateModelMixin.create], with the serializer
    [get_serializer_class] picks for POST. *)
Definition post (request_user : User) (data : TaskData) (now : Z) (db : DB)
    : Response TaskBody * DB :=
  match TaskCreateUpdateSerializer.is_valid false data with
  | inr errors => (exception_handler (ValidationError errors), db)
  | inl v =>
      let '(t, db') := perform_create v request_user now db in
      (HTTP_201_CREATED
         (TaskFieldsRepr (TaskCreateUpdateSerializer.to_representation t)), db')
  end.
End TaskListCreateView.

(** The requests a client sends to /tasks/{id}. *)
Inductive DetailRequest :=
  | GetTask
  | PutTask (data : TaskData) (now : Z)
  | PatchTask (data : TaskData) (now : Z)
  | DeleteTask.

Module TaskDetailView.
Definition permission_classes : list (Method → User → Task → bool) :=
  [IsOwnerOrAdmin.has_object_permission].

Definition get_queryset (request_user : User) (db : DB) : QuerySet :=
  if bool_decide (role request_user = "admin") then TaskManager.all db
  else TaskManager.filter_user request_user db.

(** [GenericAPIView.get_object]: [get_object_or_404] on the queryset of
    the view, then [check_object_permissions].  The view declares no
    filterset, so filtering the queryset leaves it as it is. *)
Definition get_object (method : Method) (request_user : User) (pk : Z) (db : DB)
    : Task + APIException :=
  let queryset := get_queryset request_user db in
  match filter (λ t, task_id t = pk) queryset with
  | [] => inr Http404
  | [obj] =>
      if forallb (λ permission, permission method request_user obj) permission_classes
      then inl obj
      else inr PermissionDenied
  | _ => inr MultipleObjectsReturned
  end.

(** GET /tasks/{id}: [RetrieveModelMixin.retrieve]. *)
Definition get (request_user : User) (pk : Z) (db : DB) : Response TaskBody * DB :=
  match get_object GET request_user pk db with
  | inr exc => (exception_handler exc, db)
  | inl instance => (HTTP_200_OK (TaskRepr instance), db)
  end.

(** [UpdateModelMixin.update]: the object is looked up before the body
    is validated. *)
Definition update (method : Method) (partial : bool) (request_user : User) (pk : Z)
    (data : TaskData) (now : Z) (db : DB) : Response TaskBody * DB :=
  match get_object method request_user pk db with
  | inr exc => (exception_handler exc, db)
  | inl instance =>
      match TaskCreateUpdateSerializer.is_valid partial data with
      | inr errors => (exception_handler (ValidationError errors), db)
      | inl v =>
          let '(t, db') := TaskCreateUpdateSerializer.update instance v now db in
          (HTTP_200_OK
             (TaskFieldsRepr (TaskCreateUpdateSerializer.to_representation t)), db')
      end
  end.

(** PUT /tasks/{id} and PATCH /tasks/{id} *)
Definition put := update PUT false.
Definition patch := update PATCH true.

(** DELETE /tasks/{id}: [DestroyModelMixin.destroy]. *)
Definition delete (request_user : User) (pk : Z) (db : DB) : Response TaskBody * DB :=
  match get_object DELETE request_user pk db with
  | inr exc => (exception_handler exc, db)
  | inl instance =>
      (HTTP_204_NO_CONTENT,
       set_tasks db (filter (λ t, task_id t ≠ task_id instance) (tasks db)))
  end.

(** [APIView.dispatch]: the handler of the request's method. *)
Definition dispatch (request : DetailRequest) (request_user : User) (pk : Z)
    (db : DB) : Response TaskBody * DB :=
  match request with
  | GetTask => get request_user pk db
  | PutTask data now => put request_user pk data now db
  | PatchTask data now => patch request_user pk data now db
  | DeleteTask => delete request_user pk db
  end.
End TaskDetailView.

(** *** task_stats *)

(** Python's float arithmetic, as far as [task_stats] uses it. *)
Class FloatArith (F : Type) := {
  float_of_int : Z → F;
  float_div : F → F → F;
  float_mul : F → F → F;
  float_round : F → Z → F;           (* float.__round__(ndigits) *)
}.

(** A Python number: the rate is the int [0] or a float. *)
Inductive Number (F : Type) :=
  | PyInt (n : Z)
  | PyFloat (x : F).

Arguments PyInt {F} n.
Arguments PyFloat {F} x.

Record Stats (F : Type) := mkStats {
  total_tasks : Z;
  completed_tasks : Z;
  pending_tasks : Z;
  completion_rate : Number F;
}.

Arguments mkStats {F}.
Arguments total_tasks {F}.
Arguments completed_tasks {F}.
Arguments pending_tasks {F}.
Arguments completion_rate {F}.

Section Statistics.
Context {F : Type} `{FloatArith F}.

(** [a / b] on ints; [None] is [ZeroDivisionError]. *)
Definition truediv (a b : Z) : option F :=
  if bool_decide (b = 0) then None
  else Some (float_div (float_of_int a) (float_of_int b)).

(** [round(x, ndigits)] for [ndigits >= 0]: an int is its own rounding. *)
Definition py_round (x : Number F) (ndigits : Z) : Number F :=
  match x with
  | PyInt n => PyInt n
  | PyFloat f => PyFloat (float_round f ndigits)
  end.

(** The queryset [task_stats] builds in its first four lines. *)
Definition task_stats_queryset (request_user : User) (db : DB) : QuerySet :=
  if bool_decide (role request_user = "admin") then TaskManager.all db
  else TaskManager.filter_user request_user db.

(** Get task statistics for the current user. *)
Definition task_stats (request_user : User) (db : DB) : Response (Stats F) :=
  let queryset := task_stats_queryset request_user db in
  let total_tasks := TaskManager.count queryset in
  let completed_tasks :=
    TaskManager.count (filter (λ t, completed t = true) queryset) in
  let pending_tasks := total_tasks - completed_tasks in
  let rate :=
    if total_tasks >? 0 then
      q ← truediv completed_tasks total_tasks;
      Some (PyFloat (float_mul q (float_of_int 100)))
    else Some (PyInt 0) in
  match rate with
  | None => HTTP_500_INTERNAL_SERVER_ERROR
  | Some rate =>
      HTTP_200_OK {| total_tasks := total_tasks;
                     completed_tasks := completed_tasks;
                     pending_tasks := pending_tasks;
                     completion_rate := py_round rate 2 |}
  end.
End Statistics.

(** *** Python floats

    A float is embedded as the rational number it stands for; the
    operations compute in the rationals and round the exact result to the
    nearest binary64 number, a tie going to the even significand, as IEEE
    754 asks of division and multiplication. *)

(** [round_half_even x]: the integer nearest to [x], a tie going to the
    even neighbour. *)
Definition round_half_even (x : Q) : Z :=
  let fl := Qfloor x in
  match Qcompare (x - inject_Z fl)%Q (1 # 2)%Q with
  | Lt => fl
  | Gt => fl + 1
  | Eq => if Z.even fl then fl else fl + 1
  end.

(** The decimal number of [ndigits] decimal places nearest to [x]. *)
Definition Q_round (x : Q) (ndigits : Z) : Q :=
  Qred (inject_Z (round_half_even (x * inject_Z (10 ^ ndigits))%Q)
        / inject_Z (10 ^ ndigits))%Q.

Definition Qpow2 (e : Z) : Q :=
  if 0 <=? e then inject_Z (2 ^ e) else (1 # Z.to_pos (2 ^ (- e)))%Q.

(** [Qlog2 q], for [0 < q]: the exponent [k] with [2^k <= q < 2^(k+1)]. *)
Definition Qlog2 (q : Q) : Z :=
  let k := Z.log2 (Qnum q) - Z.log2 (Z.pos (Qden q)) in
  if Qle_bool (Qpow2 k) q then k else k - 1.

(** The binary64 number nearest to [q], for [0 < q < 2^1024]: a
    significand of 53 bits, and the weight [2^-1074] of its last bit when
    [q] is below the normal range. *)
Definition binary64_pos (q : Q) : Q :=
  let e := Z.max (Qlog2 q - 52) (-1074) in
  Qred (inject_Z (round_half_even (q / Qpow2 e)%Q) * Qpow2 e)%Q.

Definition binary64 (q : Q) : Q :=
  match Qcompare q 0 with
  | Eq => 0%Q
  | Gt => binary64_pos q
  | Lt => (- binary64_pos (- q))%Q
  end.

(** CPython's floats.  An int operand is carried as it is: [int / int]
    rounds the exact quotient once, and 100 is a binary64 number.
    [float.__round__] takes the decimal nearest to the exact value of the
    float and returns the float nearest to that decimal. *)
#[global] Instance Binary64 : FloatArith Q := {
  float_of_int := inject_Z;
  float_div := λ a b, binary64 (a / b)%Q;
  float_mul := λ a b, binary64 (a * b)%Q;
  float_round := λ x ndigits, binary64 (Q_round x ndigits);
}.

(** ** Sequences of task operations *)

(** The task operations of the API, each with its caller. *)
Inductive Op :=
  | CreateTask (caller : User) (data : TaskData) (now : Z)
  | OnTask (caller : User) (pk : Z) (request : DetailRequest).

Definition run_op (op : Op) (db : DB) : Response TaskBody * DB :=
  match op with
  | CreateTask caller data now => TaskListCreateView.post caller data now db
  | OnTask caller pk request => TaskDetailView.dispatch request caller pk db
  end.

(** The history of a run: which caller created the task of each key.  It
    is kept beside the database, the views never read it. *)
Definition step (st : DB * gmap Z Z) (op : Op) : DB * gmap Z Z :=
  let '(db, creators) := st in
  let '(response, db') := run_op op db in
  match op, response with
  | CreateTask caller _ _, HTTP_201_CREATED _ =>
      (db', <[next_task_id db := user_id caller]> creators)
  | _, _ => (db', creators)
  end.

Definition run (db0 : DB) (ops : list Op) : DB * gmap Z Z :=
  foldl step (db0, ∅) ops.

(** Every row has its own key, below the next key of the sequence. *)
Definition db_wf (db : DB) : Prop :=
  NoDup (task_id <$> tasks db) ∧ Forall (λ t, task_id t < next_task_id db) (tasks db).

(** The invariant of a run: the table is well formed and the owner of
    every task is the caller who created it. *)
Definition owner_is_creator (st : DB * gmap Z Z) : Prop :=
  db_wf st.1 ∧ ∀ t, t ∈ tasks st.1 → st.2 !! task_id t = Some (task_user t).

(** ** The specification's reading of scoping, search and ordering *)

(** The scoped set as the specification words it: every task for an
    administrator, the caller's own tasks for anyone else. *)
Definition spec_scoped_set (caller : User) (db : DB) : list Task :=
  if bool_decide (role caller = "admin") then tasks db
  else filter (λ t, task_user t = user_id caller) (tasks db).

(** The free-text search as the specification words it: the tasks of the
    scoped set whose title or description contains the search string,
    case-insensitively. *)
Definition spec_search (s : string) (scoped : QuerySet) : QuerySet :=
  filter (λ t, icontains (title t) s || icontains (description t) s = true) scoped.

(** Ordered by title, ascending. *)
Definition spec_sorted_by_title (l : list Task) : Prop :=
  Sorted (λ a b, String.leb (title a) (title b) = true) l.

(** ** The tables of the test suite *)

Module Fixtures.
(** tasks/tests.py, TaskAPITest.setUp *)
Definition user1 : User :=
  {| user_id := 1; username := "user1"; email := "user1@example.com";
     password := "testpass123"; role := "user";
     user_created_at := 0; user_updated_at := 0 |}.
Definition user2 : User :=
  {| user_id := 2; username := "user2"; email := "user2@example.com";
     password := "testpass123"; role := "user";
     user_created_at := 0; user_updated_at := 0 |}.
Definition admin_user : User :=
  {| user_id := 3; username := "admin"; email := "admin@example.com";
     password := "testpass123"; role := "admin";
     user_created_at := 0; user_updated_at := 0 |}.

Definition task1 : Task :=
  {| task_id := 1; title := "User1 Task 1"; description := "Task 1 for user 1";
     completed := false; created_at := 1; updated_at := 1; task_user := 1 |}.
Definition task2 : Task :=
  {| task_id := 2; title := "User1 Task 2"; description := "Task 2 for user 1";
     completed := true; created_at := 2; updated_at := 2; task_user := 1 |}.
Definition task3 : Task :=
  {| task_id := 3; title := "User2 Task 1"; description := "Task 1 for user 2";
     completed := false; created_at := 3; updated_at := 3; task_user := 2 |}.

Definition db : DB :=
  {| users := [user1; user2; admin_user]; tasks := [task1; task2; task3];
     next_user_id := 4; next_task_id := 4 |}.

(** tasks/tests.py, PaginationTest.setUp: 25 tasks of one user. *)
Definition numbered_task (i : nat) : Task :=
  {| task_id := Z.of_nat (i + 1); title := "Task"; description := "Description";
     completed := false; created_at := Z.of_nat (i + 1);
     updated_at := Z.of_nat (i + 1); task_user := 1 |}.

Definition db25 : DB :=
  {| users := [user1]; tasks := numbered_task <$> seq 0 25;
     next_user_id := 2; next_task_id := 26 |}.

(** 160 tasks of user1, the first 23 of them completed. *)
Definition progress_task (i : nat) : Task :=
  {| task_id := Z.of_nat (i + 1); title := "Task"; description := "Description";
     completed := bool_decide (i < 23)%nat; created_at := Z.of_nat (i + 1);
     updated_at := Z.of_nat (i + 1); task_user := 1 |}.

Definition db160 : DB :=
  {| users := [user1]; tasks := progress_task <$> seq 0 160;
     next_user_id := 2; next_task_id := 161 |}.

(** Passwords are accepted and stored as they are. *)
Definition plain_backend : AuthBackend :=
  {| validate_password := λ _, true;
     valid_username := λ _, true;
     valid_email := λ _, true;
     normalize_username := λ s, s;
     normalize_email := λ s, s;
     make_password := λ s, s |}.
End Fixtures.

(** ** accounts/views.py: login and profile *)

(** The body of a login request. *)
Record LoginData := mkLoginData {
  login_email : option string;
  login_password : option string;
}.

(** What the login view answers with; as for registration, the two tokens
    issued with a 200 are left out of the body. *)
Inductive LoginResponse :=
  | LOGIN_200_OK (user : User)
  | LOGIN_400_BAD_REQUEST
  | LOGIN_401_UNAUTHORIZED
  | LOGIN_500_INTERNAL_SERVER_ERROR.

(** [request.data.get(key)] under [not]: a missing key and the empty
    string are both falsy. *)
Definition truthy (v : option string) : option string :=
  match v with
  | None => None
  | Some s => if bool_decide (s = "") then None else Some s
  end.

Section Login.
(** [check_password raw stored]: the password hasher's check of a raw
    password against a stored hash. *)
Variable check_password : string → string → bool.

(** [django.contrib.auth.authenticate] with the model backend: the user
    is looked up by [USERNAME_FIELD = "email"], then the password is
    checked.  Every user [create_user] makes is active.  [inr] is the
    [MultipleObjectsReturned] of a lookup that finds two rows. *)
Definition authenticate (username raw_password : string) (db : DB)
    : option User + APIException :=
  match filter (λ u, email u = username) (users db) with
  | [] => inl None
  | [user] =>
      if check_password raw_password (password user) then inl (Some user)
      else inl None
  | _ => inr MultipleObjectsReturned
  end.

(** User login endpoint *)
Definition login_view (data : LoginData) (db : DB) : LoginResponse :=
  match truthy (login_email data), truthy (login_password data) with
  | Some email_given, Some password_given =>
      match authenticate email_given password_given db with
      | inl (Some user) => LOGIN_200_OK user
      | inl None => LOGIN_401_UNAUTHORIZED
      | inr _ => LOGIN_500_INTERNAL_SERVER_ERROR
      end
  | _, _ => LOGIN_400_BAD_REQUEST
  end.
End Login.

(** Get current user profile *)
Definition profile_view (request_user : User) : Response User :=
  HTTP_200_OK request_user.

(** The users table is well formed: e-mail addresses, user names and keys
    are unique, and every key is below the next key of the sequence. *)
Definition users_wf (db : DB) : Prop :=
  NoDup (email <$> users db) ∧ NoDup (username <$> users db)
  ∧ NoDup (user_id <$> users db)
  ∧ Forall (λ u, user_id u < next_user_id db) (users db).

(** ** Reading aids for the task views *)

(** The caller may see the task: the rule of both [get_queryset]s. *)
Definition can_see (caller : User) (t : Task) : Prop :=
  role caller = "admin" ∨ task_user t = user_id caller.

#[global] Instance can_see_dec caller t : Decision (can_see caller t).
Proof. unfold can_see. apply _. Defined.

(** The day a moment falls on. *)
Definition day_of (moment : Z) : Z := moment / MICROSECONDS_PER_DAY.

(** What the three filters of [TaskFilter] ask of one task. *)
Definition task_matches (params : QueryParams) (t : Task) : Prop :=
  (∀ b, q_completed params = Some b → completed t = b)
  ∧ (∀ s, q_title params = Some s → icontains (title t) (strip s) = true)
  ∧ (∀ a, q_created_at_after params = Some a → a ≤ day_of (created_at t))
  ∧ (∀ b, q_created_at_before params = Some b → day_of (created_at t) ≤ b).

#[global] Instance from_option_dec {A} (P : A → Prop) (Q : Prop)
    `{∀ x, Decision (P x)} `{Decision Q} (o : option A) :
  Decision (from_option P Q o).
Proof. destruct o; apply _. Defined.

#[global] Instance task_matches_dec params t : Decision (task_matches params t).
Proof.
  destruct (decide
    (from_option (λ b, completed t = b) True (q_completed params)
     ∧ from_option (λ s, icontains (title t) (strip s) = true) True
         (q_title params)
     ∧ from_option (λ a, a ≤ day_of (created_at t)) True
         (q_created_at_after params)
     ∧ from_option (λ b, day_of (created_at t) ≤ b) True
         (q_created_at_before params))) as [Hyes|Hno]; [left|right];
    unfold task_matches;
    destruct (q_completed params), (q_title params),
      (q_created_at_after params), (q_created_at_before params);
    simpl in *.
  all: first
    [ destruct Hyes as (Hc & Hs & Ha & Hb); split_and!; intros x Hx;
      simplify_eq; done
    | intros (Hc & Hs & Ha & Hb); destruct Hno; split_and!; eauto ].
Defined.

(** The [title] parameter is one the form of the filter set accepts:
    trimmed, it holds no null character. *)
Definition params_accepted (params : QueryParams) : Prop :=
  ∀ s, q_title params = Some s → has_nul (strip s) = false.

(** The role a registration asks for: "user" when it names none or sends
    it empty. *)
Definition requested_role (data : RegistrationData) : string :=
  match reg_role data with
  | Some r => if bool_decide (r = "") then "user" else r
  | None => "user"
  end.

(** What the task serializer asks of the body: a title, unless the update
    is partial, that is not blank once trimmed, and no null character in
    the trimmed title or description. *)
Definition title_accepted (partial : bool) (v : option string) : Prop :=
  match v with
  | None => partial = true
  | Some s => strip s ≠ "" ∧ has_nul (strip s) = false
  end.

Definition description_accepted (v : option string) : Prop :=
  match v with
  | None => True
  | Some s => has_nul (strip s) = false
  end.

#[global] Instance title_accepted_dec partial v : Decision (title_accepted partial v).
Proof. destruct v; simpl; apply _. Defined.

#[global] Instance description_accepted_dec v : Decision (description_accepted v).
Proof. destruct v; simpl; apply _. Defined.

(** The fields a rejected body is answered with. *)
Definition rejected_fields (partial : bool) (data : TaskData) : list string :=
  ((if decide (title_accepted partial (data_title data)) then [] else ["title"])
   ++ (if decide (description_accepted (data_description data)) then []
       else ["description"]))%list.

Definition with_completed (b : bool) (params : QueryParams) : QueryParams :=
  {| q_completed := Some b; q_title := q_title params;
     q_created_at_after := q_created_at_after params;
     q_created_at_before := q_created_at_before params;
     q_search := q_search params; q_ordering := q_ordering params;
     q_page := q_page params |}.

(** The caller of an operation. *)
Definition op_caller (op : Op) : User :=
  match op with
  | CreateTask caller _ _ => caller
  | OnTask caller _ _ => caller
  end.

(** The rows a client collects by asking for pages 1 to [last] in turn. *)
Definition page_results (caller : User) (params : QueryParams) (db : DB)
    (n : Z) : list Task :=
  match TaskListCreateView.get caller (with_page n params) db with
  | HTTP_200_OK page => results page
  | _ => []
  end.

Definition all_pages (caller : User) (params : QueryParams) (db : DB)
    : list Task :=
  let last := Paginator.num_pages
                (TaskListCreateView.filter_queryset params
                   (TaskListCreateView.get_queryset caller db)) PAGE_SIZE in
  mjoin (page_results caller params db
           <$> ((λ i, Z.of_nat (S i)) <$> seq 0 (Z.to_nat last))).

(** * Properties *)

(** ** The default ordering *)

Lemma insert_created_desc_Permutation (t : Task) (l : list Task) :
  insert_created_desc t l ≡ₚ t :: l.
Proof.
  induction l as [|x l IH]; simpl; [done|].
  destruct (created_at x <=? created_at t); [done|].
  rewrite IH. apply Permutation_swap.
Qed.

Lemma order_by_created_desc_Permutation (l : list Task) :
  order_by_created_desc l ≡ₚ l.
Proof.
  unfold order_by_created_desc.
  induction l as [|x l IH]; simpl; [done|].
  rewrite insert_created_desc_Permutation. by f_equiv.
Qed.

Lemma insert_created_desc_HdRel (t a : Task) (l : list Task) :
  created_at t ≤ created_at a →
  HdRel (λ x y, created_at y ≤ created_at x) a l →
  HdRel (λ x y, created_at y ≤ created_at x) a (insert_created_desc t l).
Proof.
  intros Hta Hhd. destruct l as [|x l]; simpl.
  - by constructor.
  - destruct (created_at x <=? created_at t); constructor; [done|].
    by inversion Hhd.
Qed.

Lemma insert_created_desc_Sorted (t : Task) (l : list Task) :
  Sorted (λ x y, created_at y ≤ created_at x) l →
  Sorted (λ x y, created_at y ≤ created_at x) (insert_created_desc t l).
Proof.
  induction 1 as [|a l Hs IH Hhd]; simpl.
  - repeat constructor.
  - destruct (created_at a <=? created_at t) eqn:E.
    + constructor; [by constructor|]. constructor. lia.
    + constructor; [done|]. apply insert_created_desc_HdRel; [lia|done].
Qed.

(** The rows of a queryset come newest first. *)
Lemma order_by_created_desc_Sorted (l : list Task) :
  Sorted (λ x y, created_at y ≤ created_at x) (order_by_created_desc l).
Proof.
  unfold order_by_created_desc.
  induction l as [|x l IH]; simpl; [constructor|].
  by apply insert_created_desc_Sorted.
Qed.

Lemma TaskManager_all_Permutation (db : DB) : TaskManager.all db ≡ₚ tasks db.
Proof. apply order_by_created_desc_Permutation. Qed.

Lemma elem_of_TaskManager_all (db : DB) (t : Task) :
  t ∈ TaskManager.all db ↔ t ∈ tasks db.
Proof. by rewrite TaskManager_all_Permutation. Qed.

(** ** Scoping *)

Lemma get_queryset_spec_scoped_set (caller : User) (db : DB) :
  TaskListCreateView.get_queryset caller db ≡ₚ spec_scoped_set caller db.
Proof.
  unfold TaskListCreateView.get_queryset, spec_scoped_set, TaskManager.filter_user.
  case_bool_decide.
  - apply TaskManager_all_Permutation.
  - by rewrite TaskManager_all_Permutation.
Qed.

Lemma elem_of_get_queryset (caller : User) (db : DB) (t : Task) :
  t ∈ TaskListCreateView.get_queryset caller db ↔
  t ∈ tasks db ∧ (role caller = "admin" ∨ task_user t = user_id caller).
Proof.
  rewrite get_queryset_spec_scoped_set. unfold spec_scoped_set.
  case_bool_decide as Hrole.
  - split; [intros Ht; split; [done|by left]|by intros [Ht _]].
  - rewrite list_elem_of_filter.
    split; [intros [Hu Ht]; split; [done|by right]|].
    intros [Ht [Ha|Hu]]; done.
Qed.

Lemma DjangoFilterBackend_sublist (params : QueryParams) (qs : QuerySet) :
  DjangoFilterBackend params qs `sublist_of` qs.
Proof.
  unfold DjangoFilterBackend, TaskFilter.filter_queryset,
    TaskFilter.created_at_filter, TaskFilter.title_filter,
    TaskFilter.completed_filter.
  destruct params as [c ti a b s o p]; simpl.
  destruct c, ti as [ti|], a, b; simpl;
    try destruct (bool_decide (strip ti = ""));
    repeat (etrans; [apply sublist_filter|]); done.
Qed.

Lemma filter_queryset_sublist (params : QueryParams) (qs : QuerySet) :
  TaskListCreateView.filter_queryset params qs `sublist_of` qs.
Proof. apply DjangoFilterBackend_sublist. Qed.

Lemma Paginator_slice_sublist (l : QuerySet) (bottom top : Z) :
  Paginator.slice l bottom top `sublist_of` l.
Proof.
  unfold Paginator.slice. etrans; [apply sublist_take|apply sublist_drop].
Qed.

Lemma paginate_queryset_sublist (qs : QuerySet) (params : QueryParams) (page : Page) :
  PageNumberPagination.paginate_queryset qs params = Some page →
  results page `sublist_of` qs ∧ count page = Z.of_nat (length qs).
Proof.
  unfold PageNumberPagination.paginate_queryset, Paginator.page.
  destruct (Paginator.validate_number _ _ _); [|done].
  intros [= <-]; simpl. split; [apply Paginator_slice_sublist|done].
Qed.

(** C1. ListTasks computes over the caller's scoped set.  The queryset the
    list view starts from holds every task, whoever owns it, for an
    administrator, and for any other caller exactly the tasks whose owner is
    the caller (as a multiset of rows: the same rows, each as often).  The
    answer is the page of the filtered scoped set, so scoping comes before
    filtering and pagination: what a page shows is drawn, in order, from the
    scoped set, a caller who is not an administrator is never shown a task of
    another owner, and two databases with the same scoped set give the same
    answer. *)
Theorem C1_list_tasks_scoped (caller : User) (db : DB) :
  (role caller = "admin" → TaskListCreateView.get_queryset caller db ≡ₚ tasks db) ∧
  (role caller ≠ "admin" →
     TaskListCreateView.get_queryset caller db
       ≡ₚ filter (λ t, task_user t = user_id caller) (tasks db)) ∧
  (∀ params,
     TaskListCreateView.get caller params db =
       match PageNumberPagination.paginate_queryset
               (TaskFilter.filter_queryset params
                  (TaskListCreateView.get_queryset caller db)) params with
       | Some page => HTTP_200_OK page
       | None => HTTP_404_NOT_FOUND
       end) ∧
  (∀ params page,
     TaskListCreateView.get caller params db = HTTP_200_OK page →
     results page `sublist_of` TaskListCreateView.get_queryset caller db ∧
     (role caller ≠ "admin" →
        ∀ t, t ∈ results page → t ∈ tasks db ∧ task_user t = user_id caller)) ∧
  (∀ params db',
     TaskListCreateView.get_queryset caller db
       = TaskListCreateView.get_queryset caller db' →
     TaskListCreateView.get caller params db
       = TaskListCreateView.get caller params db').
Proof.
  split_and!.
  - intros Hadmin. rewrite get_queryset_spec_scoped_set.
    unfold spec_scoped_set. by rewrite bool_decide_eq_true_2.
  - intros Huser. rewrite get_queryset_spec_scoped_set.
    unfold spec_scoped_set. by rewrite bool_decide_eq_false_2.
  - reflexivity.
  - intros params page. unfold TaskListCreateView.get.
    destruct (PageNumberPagination.paginate_queryset _ _) as [page'|] eqn:E;
      [|done].
    intros [= ->]. apply paginate_queryset_sublist in E as [Hsub _].
    assert (results page `sublist_of` TaskListCreateView.get_queryset caller db)
      as Hscoped by (etrans; [exact Hsub|apply filter_queryset_sublist]).
    split; [done|]. intros Huser t Ht.
    eapply elem_of_sublist in Ht; [|exact Hscoped].
    apply elem_of_get_queryset in Ht as [Hin [Ha|Hu]]; done.
  - intros params db' Heq. unfold TaskListCreateView.get. by rewrite Heq.
Qed.

(** The tables of TaskAPITest: user1 is shown her two tasks and not the
    task of user2. *)
Lemma C1_list_tasks_scoped_witness :
  role Fixtures.user1 ≠ "admin" ∧
  TaskListCreateView.get_queryset Fixtures.user1 Fixtures.db
    ≡ₚ [Fixtures.task1; Fixtures.task2].
Proof.
  split; [done|].
  exact (proj1 (proj2 (C1_list_tasks_scoped Fixtures.user1 Fixtures.db))
           ltac:(done)).
Defined.

(** ** The access policy *)

(** C3. The decision of the access policy is
    [caller.role == admin OR caller.userId == resourceOwnerId] for every
    method, safe (read) or not (write): any two methods get the same
    decision, and a caller who is neither an administrator nor the owner is
    denied under every method, the safe ones included. *)
Theorem C3_access_policy (caller : User) (obj : Task) :
  (∀ method,
     IsOwnerOrAdmin.has_object_permission method caller obj
       = bool_decide (role caller = "admin")
         || bool_decide (user_id caller = task_user obj)) ∧
  (∀ read write,
     read ∈ SAFE_METHODS → write ∉ SAFE_METHODS →
     IsOwnerOrAdmin.has_object_permission read caller obj
       = IsOwnerOrAdmin.has_object_permission write caller obj) ∧
  (role caller ≠ "admin" → user_id caller ≠ task_user obj →
   ∀ method, IsOwnerOrAdmin.has_object_permission method caller obj = false).
Proof.
  assert (∀ method,
     IsOwnerOrAdmin.has_object_permission method caller obj
       = bool_decide (role caller = "admin")
         || bool_decide (user_id caller = task_user obj)) as Hrule.
  { intros method. unfold IsOwnerOrAdmin.has_object_permission.
    rewrite (bool_decide_ext (task_user obj = user_id caller)
               (user_id caller = task_user obj)) by done.
    by destruct (bool_decide (method ∈ SAFE_METHODS)). }
  split_and!; [done| |].
  - intros read write _ _. by rewrite !Hrule.
  - intros Hrole Hid method. rewrite Hrule.
    by rewrite !bool_decide_eq_false_2.
Qed.

(** user1 and the task of user2, in the tables of TaskAPITest: denied for
    GET as for DELETE. *)
Lemma C3_access_policy_witness :
  IsOwnerOrAdmin.has_object_permission GET Fixtures.user1 Fixtures.task3
    = IsOwnerOrAdmin.has_object_permission DELETE Fixtures.user1 Fixtures.task3
  ∧ ∀ method,
      IsOwnerOrAdmin.has_object_permission method Fixtures.user1 Fixtures.task3
        = false.
Proof.
  pose proof (C3_access_policy Fixtures.user1 Fixtures.task3) as (_ & Hrw & Hdeny).
  split.
  - apply Hrw.
    + exact (bool_decide_unpack (GET ∈ SAFE_METHODS) I).
    + exact (bool_decide_unpack (DELETE ∉ SAFE_METHODS) I).
  - apply Hdeny; done.
Defined.

(** ** Pagination *)

Lemma Paginator_num_pages_pos (l : QuerySet) : 1 ≤ Paginator.num_pages l PAGE_SIZE.
Proof.
  unfold Paginator.num_pages, PAGE_SIZE.
  apply Z.div_le_lower_bound; lia.
Qed.

Lemma Paginator_slice_page (l : QuerySet) (number : Z) :
  1 ≤ number →
  let bottom := (number - 1) * PAGE_SIZE in
  let top := bottom + PAGE_SIZE in
  Paginator.slice l bottom
    (if top >=? Paginator.count l then Paginator.count l else top)
  = take 20 (drop (Z.to_nat (PAGE_SIZE * (number - 1))) l).
Proof.
  intros Hn bottom top. unfold Paginator.slice.
  replace (PAGE_SIZE * (number - 1)) with bottom by (unfold bottom; lia).
  assert (0 ≤ bottom) by (unfold bottom, PAGE_SIZE; lia).
  assert (Z.of_nat (length (drop (Z.to_nat bottom) l))
          = Z.max 0 (Paginator.count l - bottom)) as Hlen.
  { rewrite length_drop. unfold Paginator.count, TaskManager.count. lia. }
  destruct (top >=? Paginator.count l) eqn:E.
  - rewrite !take_ge; [done| |]; unfold top, PAGE_SIZE in *; lia.
  - by replace (Z.to_nat (top - bottom)) with 20%nat
      by (unfold top, PAGE_SIZE; lia).
Qed.

(** A page number from 1 to the last page is answered with that page. *)
Lemma paginate_queryset_valid (qs : QuerySet) (params : QueryParams) :
  let number := default 1 (q_page params) in
  let last := Paginator.num_pages qs PAGE_SIZE in
  1 ≤ number ≤ last →
  PageNumberPagination.paginate_queryset qs params =
    Some {| count := Z.of_nat (length qs);
            next := if number <? last then Some (number + 1) else None;
            previous := if number >? 1 then Some (number - 1) else None;
            results := take 20 (drop (Z.to_nat (PAGE_SIZE * (number - 1))) qs) |}.
Proof.
  intros number last Hn.
  unfold PageNumberPagination.paginate_queryset, Paginator.page,
    Paginator.validate_number.
  fold number. fold last.
  replace (number <? 1) with false by lia.
  replace (number >? last) with false by lia.
  rewrite Paginator_slice_page by lia. reflexivity.
Qed.

(** Any other page number raises [NotFound]. *)
Lemma paginate_queryset_invalid (qs : QuerySet) (params : QueryParams) :
  let number := default 1 (q_page params) in
  number < 1 ∨ Paginator.num_pages qs PAGE_SIZE < number →
  PageNumberPagination.paginate_queryset qs params = None.
Proof.
  intros number Hn.
  unfold PageNumberPagination.paginate_queryset, Paginator.page,
    Paginator.validate_number.
  fold number.
  destruct (number <? 1) eqn:E1; [done|].
  destruct (number >? Paginator.num_pages qs PAGE_SIZE) eqn:E2; [done|lia].
Qed.

(** The last page is page [ceil(count / 20)], and page 1 when there is no
    row. *)
Lemma Paginator_num_pages_spec (l : QuerySet) (n : Z) :
  n = Paginator.num_pages l PAGE_SIZE ↔
  1 ≤ n ∧ PAGE_SIZE * (n - 1) < Z.max 1 (Z.of_nat (length l)) ≤ PAGE_SIZE * n.
Proof.
  unfold Paginator.num_pages, Paginator.count, TaskManager.count, PAGE_SIZE.
  set (hits := Z.max 1 (Z.of_nat (length l))).
  assert (1 ≤ hits) by lia.
  pose proof (Z.div_mod (hits + 20 - 1) 20 ltac:(lia)).
  pose proof (Z.mod_pos_bound (hits + 20 - 1) 20 ltac:(lia)).
  split; [intros ->; lia|]. intros (Hn & Hlo & Hhi). nia.
Qed.

(** C8, as the specification states it, fails: with the 25 tasks of
    PaginationTest the last page is page 2, and page 3 is answered with
    404 Not Found, not with an empty page. *)
Lemma C8_page_beyond_last_counterexample :
  ¬ (∀ (caller : User) (params : QueryParams) (db : DB) (n : Z),
       Paginator.num_pages
         (TaskListCreateView.filter_queryset params
            (TaskListCreateView.get_queryset caller db)) PAGE_SIZE < n →
       ∃ page,
         TaskListCreateView.get caller (with_page n params) db = HTTP_200_OK page
         ∧ results page = []).
Proof.
  intros Hclaim.
  destruct (Hclaim Fixtures.user1 no_params Fixtures.db25 3) as (page & Hget & _).
  - by vm_compute.
  - vm_compute in Hget. discriminate Hget.
Qed.

(** C8, amended.  ListTasks paginates the filtered scoped set with page
    size 20 and page numbers from 1.  The last page is page
    [ceil(count / 20)], or page 1 when the set is empty.  A page number from
    1 to the last page is answered with the total count of the filtered
    scoped set, the rows of that page, a next page unless it is the last and
    a previous page unless it is the first; a page number beyond the last
    page (or below 1) is answered with 404 Not Found. *)
Theorem C8_pagination (caller : User) (params : QueryParams) (db : DB) :
  let qs := TaskListCreateView.filter_queryset params
              (TaskListCreateView.get_queryset caller db) in
  let number := default 1 (q_page params) in
  let last := Paginator.num_pages qs PAGE_SIZE in
  (1 ≤ last ∧ PAGE_SIZE * (last - 1) < Z.max 1 (Z.of_nat (length qs)) ≤ PAGE_SIZE * last) ∧
  (1 ≤ number ≤ last →
     TaskListCreateView.get caller params db =
       HTTP_200_OK
         {| count := Z.of_nat (length qs);
            next := if number <? last then Some (number + 1) else None;
            previous := if number >? 1 then Some (number - 1) else None;
            results := take 20 (drop (Z.to_nat (PAGE_SIZE * (number - 1))) qs) |}) ∧
  (number < 1 ∨ last < number →
     TaskListCreateView.get caller params db = HTTP_404_NOT_FOUND).
Proof.
  intros qs number last. split; [|split].
  - by apply (Paginator_num_pages_spec qs last).
  - intros Hn. unfold TaskListCreateView.get. fold qs.
    by rewrite paginate_queryset_valid.
  - intros Hn. unfold TaskListCreateView.get. fold qs.
    by rewrite paginate_queryset_invalid.
Qed.

(** PaginationTest: of 25 tasks, page 2 holds the last 5, with a previous
    page and no next page. *)
Lemma C8_pagination_witness :
  ∃ page,
    TaskListCreateView.get Fixtures.user1 (with_page 2 no_params) Fixtures.db25
      = HTTP_200_OK page
    ∧ count page = 25 ∧ next page = None ∧ previous page = Some 1
    ∧ length (results page) = 5%nat.
Proof.
  eexists. split.
  - apply (C8_pagination Fixtures.user1 (with_page 2 no_params) Fixtures.db25).
    by vm_compute.
  - by vm_compute.
Defined.

(** ** Statistics *)

Lemma task_stats_queryset_spec_scoped_set (caller : User) (db : DB) :
  task_stats_queryset caller db ≡ₚ spec_scoped_set caller db.
Proof. apply get_queryset_spec_scoped_set. Qed.

(** The nearest integer is at most a half away. *)
Lemma round_half_even_spec (x : Q) :
  (Qabs (x - inject_Z (round_half_even x)) <= 1 # 2)%Q.
Proof.
  unfold round_half_even.
  pose proof (Qfloor_le x) as Hlo. pose proof (Qlt_floor x) as Hhi.
  rewrite inject_Z_plus in Hhi. change (inject_Z 1) with 1%Q in Hhi.
  apply Qabs_Qle_condition.
  destruct (Qcompare (x - inject_Z (Qfloor x)) (1 # 2)) eqn:Hcmp.
  - apply Qeq_alt in Hcmp. destruct (Z.even (Qfloor x));
      rewrite ?inject_Z_plus; change (inject_Z 1) with 1%Q; split; lra.
  - apply Qlt_alt in Hcmp. split; lra.
  - apply Qgt_alt in Hcmp. rewrite inject_Z_plus.
    change (inject_Z 1) with 1%Q. split; lra.
Qed.

(** Rounding to two decimal places gives a number of hundredths, at most
    half a hundredth away. *)
Lemma Q_round_spec (x : Q) :
  ∃ k : Z, (Q_round x 2 == inject_Z k / 100)%Q
           ∧ (Qabs (x - inject_Z k / 100) <= 1 # 200)%Q.
Proof.
  exists (round_half_even (x * 100)). split.
  - unfold Q_round. rewrite Qred_correct. reflexivity.
  - pose proof (round_half_even_spec (x * 100)) as Hk.
    apply Qabs_Qle_condition in Hk. apply Qabs_Qle_condition.
    change (inject_Z (round_half_even (x * 100)) / 100)%Q
      with (inject_Z (round_half_even (x * 100)) * (1 # 100))%Q.
    split; lra.
Qed.

(** C4. The statistics of a caller are computed over the scoped set, with
    no filter: [total] is its size, [completed] the number of its completed
    tasks, [pending] their difference.  When [total > 0] the rate is
    [round(completed / total * 100, 2)] in Python's floats: the quotient
    and the product [x] are rounded to binary64, and the rate is the float
    nearest to a number of hundredths that is at most half a hundredth away
    from [x].  When the set is empty the rate is the integer 0.  The view
    always answers 200: the division is never reached with a zero
    divisor. *)
Theorem C4_task_stats (caller : User) (db : DB) :
  let scoped := spec_scoped_set caller db in
  let total := Z.of_nat (length scoped) in
  let completed_count :=
    Z.of_nat (length (filter (λ t, completed t = true) scoped)) in
  ∃ stats : Stats Q,
    @task_stats Q Binary64 caller db = HTTP_200_OK stats
    ∧ total_tasks stats = total
    ∧ completed_tasks stats = completed_count
    ∧ pending_tasks stats = total - completed_count
    ∧ (0 < total →
         let x := binary64 (binary64 (inject_Z completed_count / inject_Z total)
                            * 100)%Q in
         completion_rate stats = PyFloat (binary64 (Q_round x 2))
         ∧ ∃ k : Z, (Q_round x 2 == inject_Z k / 100)%Q
                    ∧ (Qabs (x - inject_Z k / 100) <= 1 # 200)%Q)
    ∧ (total = 0 → completion_rate stats = PyInt 0).
Proof.
  intros scoped total completed_count.
  assert (TaskManager.count (task_stats_queryset caller db) = total) as Htotal.
  { unfold TaskManager.count, total, scoped.
    by rewrite task_stats_queryset_spec_scoped_set. }
  assert (TaskManager.count
            (filter (λ t, completed t = true) (task_stats_queryset caller db))
          = completed_count) as Hcompleted.
  { unfold TaskManager.count, completed_count, scoped.
    by rewrite task_stats_queryset_spec_scoped_set. }
  unfold task_stats. cbv zeta. rewrite Htotal, Hcompleted.
  destruct (total >? 0) eqn:Etotal.
  - unfold truediv. rewrite bool_decide_eq_false_2 by lia. simpl.
    eexists. split; [reflexivity|]. simpl. split_and!; try done; [|lia].
    intros _. split; [reflexivity|]. apply Q_round_spec.
  - simpl. eexists. split; [reflexivity|]. simpl. split_and!; try done. lia.
Qed.

(** TaskAPITest.test_task_stats: user1 has two tasks, one completed, and
    the rate is the float 50.0.  With 23 tasks completed of 160 the
    quotient 0.14375 is no binary64 number and the product is the float
    14.374999999999998, below the tie 14.375: the rate is the float 14.37,
    which is 8089590830664253 / 2^49. *)
Lemma C4_task_stats_witness :
  (∃ stats : Stats Q,
     task_stats Fixtures.user1 Fixtures.db = HTTP_200_OK stats
     ∧ total_tasks stats = 2 ∧ completed_tasks stats = 1
     ∧ pending_tasks stats = 1 ∧ completion_rate stats = PyFloat 50%Q)
  ∧ (∃ stats : Stats Q,
       task_stats Fixtures.user1 Fixtures.db160 = HTTP_200_OK stats
       ∧ total_tasks stats = 160 ∧ completed_tasks stats = 23
       ∧ pending_tasks stats = 137
       ∧ completion_rate stats
         = PyFloat (8089590830664253 # 562949953421312)%Q
       ∧ binary64 (1437 # 100) = (8089590830664253 # 562949953421312)%Q).
Proof.
  split.
  - destruct (C4_task_stats Fixtures.user1 Fixtures.db)
      as (stats & Hstats & Htotal & Hdone & Hpending & Hrate & _).
    exists stats. split_and!; [done..|].
    destruct Hrate as [-> _]; by vm_compute.
  - destruct (C4_task_stats Fixtures.user1 Fixtures.db160)
      as (stats & Hstats & Htotal & Hdone & Hpending & Hrate & _).
    exists stats. split_and!; [done..| |by vm_compute].
    destruct Hrate as [-> _]; by vm_compute.
Defined.

(** C10. The queryset the statistics view builds and the queryset the list
    view starts from are the same function of the caller and the tasks
    table; hence the total the statistics report is the count ListTasks
    reports when no filter is given. *)
Theorem C10_stats_scope_is_list_scope {F : Type} `{FloatArith F}
    (caller : User) (db : DB) :
  task_stats_queryset caller db = TaskListCreateView.get_queryset caller db ∧
  ∃ (stats : Stats F) (page : Page),
    task_stats caller db = HTTP_200_OK stats
    ∧ TaskListCreateView.get caller no_params db = HTTP_200_OK page
    ∧ total_tasks stats = count page.
Proof.
  split; [reflexivity|].
  unfold TaskListCreateView.get.
  rewrite paginate_queryset_valid
    by (pose proof (Paginator_num_pages_pos
                      (TaskListCreateView.filter_queryset no_params
                         (TaskListCreateView.get_queryset caller db)));
        simpl; lia).
  unfold task_stats.
  set (total := TaskManager.count (task_stats_queryset caller db)).
  destruct (total >? 0) eqn:Etotal.
  - unfold truediv. rewrite bool_decide_eq_false_2 by lia. simpl.
    eexists _, _. split_and!; reflexivity.
  - simpl. eexists _, _. split_and!; reflexivity.
Qed.

(** ** Single-task access *)

Lemma filter_nil_Forall {A} (P : A → Prop) `{∀ x, Decision (P x)} (l : list A) :
  (∀ x, x ∈ l → ¬ P x) → filter P l = [].
Proof.
  intros Hl. destruct (filter P l) as [|x l'] eqn:E; [done|].
  assert (x ∈ filter P l) as Hx by (rewrite E; left).
  apply list_elem_of_filter in Hx as [HP Hx]. by destruct (Hl x Hx).
Qed.

Lemma db_wf_task_id_inj (db : DB) (t t' : Task) :
  db_wf db → t ∈ tasks db → t' ∈ tasks db → task_id t = task_id t' → t = t'.
Proof.
  intros [Hnodup _]. revert Hnodup.
  induction (tasks db) as [|x l IH]; simpl; [by intros _ ?%elem_of_nil|].
  rewrite NoDup_cons. intros [Hx Hl] Ht Ht' Hid.
  apply elem_of_cons in Ht as [->|Ht]; apply elem_of_cons in Ht' as [->|Ht'].
  - done.
  - destruct Hx. rewrite Hid. by apply list_elem_of_fmap_2.
  - destruct Hx. rewrite <- Hid. by apply list_elem_of_fmap_2.
  - by apply IH.
Qed.

Lemma elem_of_detail_queryset (caller : User) (db : DB) (t : Task) :
  t ∈ TaskDetailView.get_queryset caller db ↔
  t ∈ tasks db ∧ (role caller = "admin" ∨ task_user t = user_id caller).
Proof. apply elem_of_get_queryset. Qed.

(** A key under which the caller's queryset holds no row raises [Http404],
    whatever the method. *)
Lemma get_object_Http404 (method : Method) (caller : User) (pk : Z) (db : DB) :
  (∀ t, t ∈ tasks db → task_id t = pk →
        role caller ≠ "admin" ∧ task_user t ≠ user_id caller) →
  TaskDetailView.get_object method caller pk db = inr Http404.
Proof.
  intros Hpk. unfold TaskDetailView.get_object.
  rewrite filter_nil_Forall; [done|].
  intros t [Ht Hvisible]%elem_of_detail_queryset Hid.
  destruct (Hpk t Ht Hid) as [Hrole Howner]. by destruct Hvisible.
Qed.

(** The object a view works on is a row of the table, under the key asked
    for, that the caller administers or owns. *)
Lemma get_object_inl (method : Method) (caller : User) (pk : Z) (db : DB)
    (obj : Task) :
  TaskDetailView.get_object method caller pk db = inl obj →
  obj ∈ tasks db ∧ task_id obj = pk
  ∧ (role caller = "admin" ∨ task_user obj = user_id caller).
Proof.
  unfold TaskDetailView.get_object.
  destruct (filter _ _) as [|x [|y l]] eqn:E; [done| |done].
  destruct (forallb _ _); [|done]. intros [= ->].
  assert (obj ∈ filter (λ t, task_id t = pk)
                  (TaskDetailView.get_queryset caller db)) as Hobj
    by (rewrite E; left).
  apply list_elem_of_filter in Hobj as [Hid Hobj].
  apply elem_of_detail_queryset in Hobj as [Hin Hvisible]. done.
Qed.

Lemma dispatch_Http404 (request : DetailRequest) (caller : User) (pk : Z) (db : DB) :
  (∀ method, TaskDetailView.get_object method caller pk db = inr Http404) →
  TaskDetailView.dispatch request caller pk db = (HTTP_404_NOT_FOUND, db).
Proof.
  intros H404. destruct request; simpl;
    unfold TaskDetailView.get, TaskDetailView.put, TaskDetailView.patch,
      TaskDetailView.update, TaskDetailView.delete;
    by rewrite H404.
Qed.

(** C2. For a caller who is not an administrator and a task of another
    owner, GetTask, UpdateTask (PUT and PATCH, whatever the body) and
    DeleteTask answer 404 Not Found and leave the database as it is, and so
    do the same requests for a key under which there is no task: the two
    answers, and the two databases after them, are equal. *)
Theorem C2_forbidden_is_not_found (caller : User) (db : DB) (t : Task)
    (missing : Z) (request : DetailRequest) :
  db_wf db →
  role caller ≠ "admin" →
  t ∈ tasks db → task_user t ≠ user_id caller →
  (∀ t', t' ∈ tasks db → task_id t' ≠ missing) →
  TaskDetailView.dispatch request caller (task_id t) db = (HTTP_404_NOT_FOUND, db)
  ∧ TaskDetailView.dispatch request caller missing db = (HTTP_404_NOT_FOUND, db)
  ∧ TaskDetailView.dispatch request caller (task_id t) db
    = TaskDetailView.dispatch request caller missing db.
Proof.
  intros Hwf Hrole Ht Howner Hmissing.
  assert (TaskDetailView.dispatch request caller (task_id t) db
          = (HTTP_404_NOT_FOUND, db)) as Hforbidden.
  { apply dispatch_Http404. intros method. apply get_object_Http404.
    intros t' Ht' Hid.
    by rewrite (db_wf_task_id_inj db t' t Hwf Ht' Ht Hid). }
  assert (TaskDetailView.dispatch request caller missing db
          = (HTTP_404_NOT_FOUND, db)) as Hmiss.
  { apply dispatch_Http404. intros method. apply get_object_Http404.
    intros t' Ht' Hid. by destruct (Hmissing t' Ht'). }
  split_and!; [done..|]. by rewrite Hforbidden, Hmiss.
Qed.

(** TaskAPITest.test_get_task_not_owner: user1 asks for the task of user2,
    and for a key that no task has. *)
Lemma C2_forbidden_is_not_found_witness :
  TaskDetailView.dispatch GetTask Fixtures.user1 3 Fixtures.db
    = (HTTP_404_NOT_FOUND, Fixtures.db)
  ∧ TaskDetailView.dispatch GetTask Fixtures.user1 99 Fixtures.db
    = (HTTP_404_NOT_FOUND, Fixtures.db)
  ∧ TaskDetailView.dispatch GetTask Fixtures.user1 3 Fixtures.db
    = TaskDetailView.dispatch GetTask Fixtures.user1 99 Fixtures.db.
Proof.
  apply (C2_forbidden_is_not_found Fixtures.user1 Fixtures.db Fixtures.task3
           99 GetTask).
  - split; compute_done.
  - done.
  - compute_done.
  - done.
  - apply Forall_forall. compute_done.
Defined.

(** ** Ownership over a run *)

(** A create request either is rejected and changes nothing, or appends one
    row: under the next key of the sequence, owned by the caller. *)
Lemma post_inversion (caller : User) (data : TaskData) (now : Z) (db : DB) :
  (∃ errors,
     TaskListCreateView.post caller data now db = (HTTP_400_BAD_REQUEST errors, db))
  ∨ (∃ body t,
       TaskListCreateView.post caller data now db
         = (HTTP_201_CREATED body,
            {| users := users db; tasks := (tasks db ++ [t])%list;
               next_user_id := next_user_id db;
               next_task_id := next_task_id db + 1 |})
       ∧ task_id t = next_task_id db
       ∧ task_user t = user_id caller).
Proof.
  unfold TaskListCreateView.post.
  destruct (TaskCreateUpdateSerializer.is_valid false data) as [v|errors].
  - right. eexists _, _. split; [reflexivity|]. done.
  - left. by exists errors.
Qed.

(** A request on one task leaves the sequence alone and makes no row: every
    row after it comes from a row before it with the same key and the same
    owner. *)
Lemma dispatch_preserves (request : DetailRequest) (caller : User) (pk : Z)
    (db : DB) :
  let db' := (TaskDetailView.dispatch request caller pk db).2 in
  next_task_id db' = next_task_id db
  ∧ (task_id <$> tasks db') `sublist_of` (task_id <$> tasks db)
  ∧ ∀ t', t' ∈ tasks db' →
      ∃ t, t ∈ tasks db ∧ task_id t = task_id t' ∧ task_user t = task_user t'.
Proof.
  assert (∀ t', t' ∈ tasks db →
            ∃ t, t ∈ tasks db ∧ task_id t = task_id t' ∧ task_user t = task_user t')
    as Hsame by (intros t' Ht'; by exists t').
  assert (∀ method partial data now,
    let db' := (TaskDetailView.update method partial caller pk data now db).2 in
    next_task_id db' = next_task_id db
    ∧ (task_id <$> tasks db') `sublist_of` (task_id <$> tasks db)
    ∧ ∀ t', t' ∈ tasks db' →
        ∃ t, t ∈ tasks db ∧ task_id t = task_id t' ∧ task_user t = task_user t')
    as Hupdate.
  { intros method partial data now. unfold TaskDetailView.update.
    destruct (TaskDetailView.get_object _ _ _ _) as [instance|exc] eqn:Hobj;
      [|done].
    destruct (TaskCreateUpdateSerializer.is_valid _ _) as [v|errors]; [|done].
    apply get_object_inl in Hobj as (Hin & _ & _).
    simpl. split; [done|]. split.
    - rewrite <- list_fmap_compose.
      erewrite (list_fmap_ext _ task_id); [done|].
      intros i x _. simpl. by case_bool_decide.
    - intros t' (x & -> & Hx)%list_elem_of_fmap.
      case_bool_decide as Hid; [|by exists x].
      by exists instance. }
  destruct request as [|data now|data now|]; simpl.
  - unfold TaskDetailView.get.
    by destruct (TaskDetailView.get_object _ _ _ _).
  - apply Hupdate.
  - apply Hupdate.
  - unfold TaskDetailView.delete.
    destruct (TaskDetailView.get_object _ _ _ _) as [instance|exc]; [|done].
    simpl. split; [done|]. split.
    + apply fmap_sublist, sublist_filter.
    + intros t' [_ Ht']%list_elem_of_filter. by exists t'.
Qed.

Lemma db_wf_post (caller : User) (data : TaskData) (now : Z) (db : DB) :
  db_wf db → db_wf (TaskListCreateView.post caller data now db).2.
Proof.
  intros [Hnodup Hbound].
  destruct (post_inversion caller data now db)
    as [[errors ->]|(body & t & -> & Hid & _)]; [done|].
  split; simpl.
  - rewrite fmap_app. simpl. apply NoDup_app. split_and!; [done| |].
    + intros pk (x & -> & Hx)%list_elem_of_fmap Hpk.
      apply list_elem_of_singleton in Hpk.
      rewrite Forall_forall in Hbound. specialize (Hbound x Hx). lia.
    + apply NoDup_singleton.
  - apply Forall_app. split.
    + eapply Forall_impl; [exact Hbound|]. simpl. lia.
    + apply Forall_singleton. lia.
Qed.

Lemma db_wf_dispatch (request : DetailRequest) (caller : User) (pk : Z) (db : DB) :
  db_wf db → db_wf (TaskDetailView.dispatch request caller pk db).2.
Proof.
  intros Hwf.
  destruct (dispatch_preserves request caller pk db) as (Hnext & Hsub & Hrows).
  destruct Hwf as [Hnodup Hbound]. split.
  - by eapply sublist_NoDup.
  - apply Forall_forall. intros t' Ht'. rewrite Hnext.
    destruct (Hrows t' Ht') as (t & Ht & <- & _).
    rewrite Forall_forall in Hbound. by apply Hbound.
Qed.

(** Every operation keeps the invariant. *)
Lemma step_owner_is_creator (st : DB * gmap Z Z) (op : Op) :
  owner_is_creator st → owner_is_creator (step st op).
Proof.
  destruct st as [db creators]. intros [Hwf Hcreators]; simpl in *.
  destruct op as [caller data now|caller pk request]; simpl.
  - pose proof (db_wf_post caller data now db Hwf) as Hwf'.
    destruct (post_inversion caller data now db)
      as [[errors Hpost]|(body & t & Hpost & Hid & Huser)];
      rewrite Hpost in *; simpl in *.
    + by split.
    + split; [done|]. simpl. intros t' Ht'.
      apply elem_of_app in Ht' as [Ht'|Ht'%list_elem_of_singleton].
      * rewrite lookup_insert_ne; [by apply Hcreators|].
        destruct Hwf as [_ Hbound]. rewrite Forall_forall in Hbound.
        specialize (Hbound t' Ht'). lia.
      * subst t'. rewrite Hid, Huser. apply lookup_insert_eq.
  - pose proof (db_wf_dispatch request caller pk db Hwf) as Hwf'.
    destruct (dispatch_preserves request caller pk db) as (_ & _ & Hrows).
    destruct (TaskDetailView.dispatch request caller pk db) as [response db'].
    simpl in *.
    assert (owner_is_creator (db', creators)) as Hinv.
    { split; [done|]. simpl. intros t' Ht'.
      destruct (Hrows t' Ht') as (t & Ht & <- & <-). by apply Hcreators. }
    by destruct response.
Qed.

Lemma foldl_step_owner_is_creator (ops : list Op) (st : DB * gmap Z Z) :
  owner_is_creator st → owner_is_creator (foldl step st ops).
Proof.
  revert st. induction ops as [|op ops IH]; intros st Hst; simpl; [done|].
  by apply IH, step_owner_is_creator.
Qed.

(** C5. Whatever the body of a CreateTask request holds, the answer is
    either a 400 that changes nothing or a 201 that appends one row owned
    by the caller; it is the latter whenever the serializer accepts the
    body; and the keys the serializer does not declare (a "user" key among
    them) have no part in the answer.  A request on one task, an update
    included, leaves the owner of every task it keeps as it was; and after
    any sequence of create, update and delete requests that starts from an
    empty tasks table, the owner of every task is the caller who created
    it. *)
Theorem C5_owner_is_creator :
  (∀ caller data now db,
     (∃ errors,
        TaskListCreateView.post caller data now db
          = (HTTP_400_BAD_REQUEST errors, db)
        ∧ TaskCreateUpdateSerializer.is_valid false data = inr errors)
     ∨ (∃ v body t,
          TaskCreateUpdateSerializer.is_valid false data = inl v
          ∧ TaskListCreateView.post caller data now db
            = (HTTP_201_CREATED body,
               {| users := users db; tasks := (tasks db ++ [t])%list;
                  next_user_id := next_user_id db;
                  next_task_id := next_task_id db + 1 |})
          ∧ task_id t = next_task_id db
          ∧ task_user t = user_id caller)) ∧
  (∀ caller data now db other,
     TaskListCreateView.post caller
       {| data_html := data_html data; data_title := data_title data;
          data_description := data_description data;
          data_completed := data_completed data; data_other := other |} now db
     = TaskListCreateView.post caller data now db) ∧
  (∀ request caller pk db t t',
     db_wf db →
     t ∈ tasks db →
     t' ∈ tasks (TaskDetailView.dispatch request caller pk db).2 →
     task_id t' = task_id t →
     task_user t' = task_user t) ∧
  (∀ db0 ops t,
     tasks db0 = [] →
     t ∈ tasks (run db0 ops).1 →
     (run db0 ops).2 !! task_id t = Some (task_user t)).
Proof.
  split_and!.
  - intros caller data now db. unfold TaskListCreateView.post.
    destruct (TaskCreateUpdateSerializer.is_valid false data) as [v|errors].
    + right. eexists v, _, _. split; [done|]. split; [reflexivity|]. done.
    + left. by exists errors.
  - intros caller data now db other. reflexivity.
  - intros request caller pk db t t' Hwf Ht Ht' Hid.
    destruct (dispatch_preserves request caller pk db) as (_ & _ & Hrows).
    destruct (Hrows t' Ht') as (t0 & Ht0 & Hid0 & <-).
    f_equal. apply (db_wf_task_id_inj db); [done..|]. by rewrite Hid0.
  - intros db0 ops t Hempty Ht.
    assert (owner_is_creator (run db0 ops)) as [_ Hinv]; [|by apply Hinv].
    apply foldl_step_owner_is_creator. split; simpl.
    + unfold db_wf. rewrite Hempty. split; constructor.
    + rewrite Hempty. by intros t0 ?%elem_of_nil.
Qed.

(** user1 creates a task while naming another user in the body, and the
    administrator then completes it: its owner is still user1. *)
Lemma C5_owner_is_creator_witness :
  let ops :=
    [CreateTask Fixtures.user1
       {| data_html := true; data_title := Some "New Test Task";
          data_description := None; data_completed := None;
          data_other := {[ "user" := "3" ]} |} 5;
     OnTask Fixtures.admin_user 1
       (PatchTask {| data_html := true; data_title := None;
                     data_description := None; data_completed := Some true;
                     data_other := ∅ |} 6)] in
  task_user <$> tasks (run empty_db ops).1 = [1]
  ∧ (run empty_db ops).2 !! 1 = Some 1.
Proof.
  intros ops. split; [by vm_compute|].
  apply (proj2 (proj2 (proj2 C5_owner_is_creator)) empty_db ops
           {| task_id := 1; title := "New Test Task"; description := "";
              completed := true; created_at := 5; updated_at := 6;
              task_user := 1 |}).
  - reflexivity.
  - compute_done.
Defined.

(** ** Search and ordering *)

Lemma StronglySorted_sublist {A} (R : relation A) (l1 l2 : list A) :
  l1 `sublist_of` l2 → StronglySorted R l2 → StronglySorted R l1.
Proof.
  induction 1 as [|x l1 l2 Hsub IH|x l1 l2 Hsub IH]; [done| |].
  - rewrite !StronglySorted_cons. intros [Hx Hl2]. split; [|by apply IH].
    rewrite Forall_forall in *. intros y Hy. apply Hx.
    by eapply elem_of_sublist.
  - rewrite StronglySorted_cons. intros [_ Hl2]. by apply IH.
Qed.

#[local] Instance newest_first_Transitive :
  Transitive (λ x y : Task, created_at y ≤ created_at x).
Proof. intros x y z Hxy Hyz. lia. Qed.

(** Every page lists its tasks newest first. *)
Lemma get_results_newest_first (caller : User) (params : QueryParams) (db : DB)
    (page : Page) :
  TaskListCreateView.get caller params db = HTTP_200_OK page →
  StronglySorted (λ x y, created_at y ≤ created_at x) (results page).
Proof.
  unfold TaskListCreateView.get.
  destruct (PageNumberPagination.paginate_queryset _ _) as [page'|] eqn:E;
    [|done].
  intros [= ->]. apply paginate_queryset_sublist in E as [Hsub _].
  eapply StronglySorted_sublist;
    [etrans; [exact Hsub|apply filter_queryset_sublist]|].
  unfold TaskListCreateView.get_queryset, TaskManager.filter_user.
  case_bool_decide.
  - apply Sorted_StronglySorted; [apply _|]. apply order_by_created_desc_Sorted.
  - eapply StronglySorted_sublist; [apply sublist_filter|].
    apply Sorted_StronglySorted; [apply _|]. apply order_by_created_desc_Sorted.
Qed.

(** C6. The list view reads no [search] parameter: [filter_backends] holds
    [DjangoFilterBackend] alone, so the answer is the same with any search
    string as with none.  With the tables of TaskAPITest, user1 searching
    "Task 2" is answered with both her tasks, while the tasks of her scoped
    set whose title or description contains "Task 2" are [task2] alone. *)
Theorem C6_search_is_ignored :
  (∀ caller s params db,
     TaskListCreateView.get caller (with_search s params) db
       = TaskListCreateView.get caller params db) ∧
  (∃ page,
     TaskListCreateView.get Fixtures.user1 (with_search "Task 2" no_params)
       Fixtures.db = HTTP_200_OK page
     ∧ results page = [Fixtures.task2; Fixtures.task1]) ∧
  spec_search "Task 2" (TaskListCreateView.get_queryset Fixtures.user1 Fixtures.db)
    = [Fixtures.task2].
Proof.
  split_and!.
  - reflexivity.
  - eexists. split; [by vm_compute|reflexivity].
  - by vm_compute.
Qed.

(** C7. The list view reads no [ordering] parameter either: the answer is
    the same with any requested ordering as with none, newest first.  With
    the tables of TaskAPITest, user1 asking for her tasks ordered by title
    is answered with "User1 Task 2" before "User1 Task 1", and with the same
    list when she asks for the reverse order. *)
Theorem C7_ordering_is_ignored :
  (∀ caller o params db,
     TaskListCreateView.get caller (with_ordering o params) db
       = TaskListCreateView.get caller params db) ∧
  (∃ page,
     TaskListCreateView.get Fixtures.user1 (with_ordering "title" no_params)
       Fixtures.db = HTTP_200_OK page
     ∧ TaskListCreateView.get Fixtures.user1 (with_ordering "-title" no_params)
         Fixtures.db = HTTP_200_OK page
     ∧ results page = [Fixtures.task2; Fixtures.task1]
     ∧ ¬ spec_sorted_by_title (results page)).
Proof.
  split.
  - reflexivity.
  - eexists. split; [by vm_compute|]. split; [by vm_compute|].
    split; [reflexivity|].
    simpl. intros Hsorted.
    apply Sorted_inv in Hsorted as [_ Hhd]. apply HdRel_inv in Hhd.
    by vm_compute in Hhd.
Qed.

(** ** Registration *)

Lemma filter_task_id_unique (l : list Task) (t : Task) :
  NoDup (task_id <$> l) → t ∈ l →
  filter (λ x, task_id x = task_id t) l = [t].
Proof.
  induction l as [|x l IH]; simpl; [by intros _ ?%elem_of_nil|].
  rewrite NoDup_cons. intros [Hx Hl] Ht.
  apply elem_of_cons in Ht as [->|Ht].
  - rewrite filter_cons_True by done. f_equal.
    apply filter_nil_Forall. intros y Hy Hid.
    destruct Hx. rewrite <- Hid. by apply list_elem_of_fmap_2.
  - rewrite filter_cons_False; [by apply IH|].
    intros Hid. destruct Hx. rewrite Hid. by apply list_elem_of_fmap_2.
Qed.

(** An administrator reaches every task of the table, under every method. *)
Lemma admin_get_object (method : Method) (user : User) (db : DB) (t : Task) :
  role user = "admin" → db_wf db → t ∈ tasks db →
  TaskDetailView.get_object method user (task_id t) db = inl t.
Proof.
  intros Hrole [Hnodup _] Ht.
  unfold TaskDetailView.get_object, TaskDetailView.get_queryset.
  rewrite bool_decide_eq_true_2 by done.
  rewrite filter_task_id_unique.
  - simpl. unfold IsOwnerOrAdmin.has_object_permission.
    rewrite (bool_decide_eq_true_2 (role user = "admin")) by done.
    by destruct (bool_decide (method ∈ SAFE_METHODS)).
  - by rewrite TaskManager_all_Permutation.
  - by apply elem_of_TaskManager_all.
Qed.

Lemma required_field_inl (name : string) (raw : string) (ok : string → bool) :
  strip raw ≠ "" → has_nul (strip raw) = false → ok (strip raw) = true →
  UserRegistrationSerializer.required_field name (Some raw) ok = inl (strip raw).
Proof.
  intros Hblank Hnul Hok. unfold UserRegistrationSerializer.required_field.
  by rewrite bool_decide_eq_false_2, Hnul, Hok.
Qed.

Lemma role_field_inl (v : option string) (r : string) :
  UserRegistrationSerializer.role_field v = inl r →
  r = default "user" v ∧ (r = "admin" ∨ r = "user").
Proof.
  unfold UserRegistrationSerializer.role_field.
  destruct v as [r'|]; simpl.
  - case_bool_decide as Hchoice; [|done]. intros [= ->]. split; [done|].
    unfold ROLE_CHOICES in Hchoice. simpl in Hchoice.
    apply elem_of_cons in Hchoice as [->|Hchoice]; [by left|].
    apply list_elem_of_singleton in Hchoice as ->. by right.
  - intros [= <-]. split; [done|by right].
Qed.

(** What [role_value] reads from the body. *)
Lemma role_value_cases (data : RegistrationData) :
  (reg_role data = None → UserRegistrationSerializer.role_value data = None)
  ∧ (∀ r, reg_role data = Some r → r ≠ "" →
          UserRegistrationSerializer.role_value data = Some r)
  ∧ (reg_role data = Some "" → reg_html data = true →
     UserRegistrationSerializer.role_value data = None)
  ∧ (reg_role data = Some "" → reg_html data = false →
     UserRegistrationSerializer.role_value data = Some "").
Proof.
  unfold UserRegistrationSerializer.role_value. split_and!.
  - by intros ->.
  - intros r -> Hr. by rewrite bool_decide_eq_false_2, andb_false_r.
  - by intros -> ->.
  - by intros -> ->.
Qed.

(** C9, as the specification states it, fails: a form that sends the role
    field empty is answered 201 with a user of role "user".  The role of a
    created user is not always the one the request supplies, and the
    default is not kept for the requests that leave the field out. *)
Lemma C9_empty_role_counterexample :
  ¬ (∀ data now db user db',
       @RegisterView.create Fixtures.plain_backend data now db
         = (HTTP_201_CREATED user, db') →
       role user = default "user" (reg_role data)).
Proof.
  intros Hclaim.
  specialize (Hclaim
    {| reg_html := true; reg_username := Some "eve";
       reg_email := Some "eve@example.com";
       reg_password := Some "testpass123";
       reg_password_confirm := Some "testpass123";
       reg_role := Some "" |} 7 Fixtures.db
    {| user_id := 4; username := "eve"; email := "eve@example.com";
       password := "testpass123"; role := "user";
       user_created_at := 7; user_updated_at := 7 |}
    {| users := (users Fixtures.db
                 ++ [{| user_id := 4; username := "eve";
                        email := "eve@example.com";
                        password := "testpass123"; role := "user";
                        user_created_at := 7; user_updated_at := 7 |}])%list;
       tasks := tasks Fixtures.db; next_user_id := 5; next_task_id := 4 |}
    eq_refl).
  discriminate Hclaim.
Qed.

(** C9. Registration needs no caller.  A user it creates has one of the
    roles "admin" and "user": the role the request supplies when it
    supplies one that is not empty, the role "user" when the request
    leaves the role out, and also when it sends the role empty, which only
    a form can do with success (a JSON body with an empty role is a 400).
    A request whose other fields are valid does create the user, with role
    "admin" when it asks for it.  For a user whose role is "admin" the
    scoped set is the whole tasks table, and every task of the table is
    reached and permitted under every method, the writing ones
    included. *)
Theorem C9_register_role `{AuthBackend} :
  (∀ data now db user db',
     RegisterView.create data now db = (HTTP_201_CREATED user, db') →
     (role user = "admin" ∨ role user = "user")
     ∧ (reg_role data = None → role user = "user")
     ∧ (∀ r, reg_role data = Some r → r ≠ "" → role user = r)
     ∧ (reg_role data = Some "" → reg_html data = true ∧ role user = "user")
     ∧ users db' = (users db ++ [user])%list) ∧
  (∀ data now db u e p c,
     reg_username data = Some u → reg_email data = Some e →
     reg_password data = Some p → reg_password_confirm data = Some c →
     strip u ≠ "" → has_nul (strip u) = false →
     valid_username (strip u) = true →
     strip e ≠ "" → has_nul (strip e) = false →
     valid_email (strip e) = true →
     strip p ≠ "" → has_nul (strip p) = false →
     validate_password (strip p) = true →
     strip c = strip p →
     Forall (λ x, username x ≠ strip u
                  ∧ username x ≠ normalize_username (strip u)) (users db) →
     Forall (λ x, email x ≠ strip e
                  ∧ email x ≠ normalize_email (strip e)) (users db) →
     (reg_role data ∈ [None; Some "admin"; Some "user"]
      ∨ (reg_role data = Some "" ∧ reg_html data = true)) →
     ∃ user db',
       RegisterView.create data now db = (HTTP_201_CREATED user, db')
       ∧ role user = requested_role data) ∧
  (∀ user db,
     role user = "admin" →
     TaskListCreateView.get_queryset user db ≡ₚ tasks db
     ∧ (db_wf db → ∀ t method,
          t ∈ tasks db →
          TaskDetailView.get_object method user (task_id t) db = inl t
          ∧ IsOwnerOrAdmin.has_object_permission method user t = true)).
Proof.
  split_and!.
  - intros data now db user db'. unfold RegisterView.create,
      UserRegistrationSerializer.is_valid,
      UserRegistrationSerializer.to_internal_value.
    destruct (UserRegistrationSerializer.required_field "username" _ _);
      [|by intros [=]].
    destruct (UserRegistrationSerializer.required_field "email" _ _);
      [|by intros [=]].
    destruct (UserRegistrationSerializer.required_field "password" _ _);
      [|by intros [=]].
    destruct (UserRegistrationSerializer.required_field "password_confirm" _ _);
      [|by intros [=]].
    destruct (UserRegistrationSerializer.role_field _) as [r|] eqn:Hrole;
      [|by intros [=]].
    apply role_field_inl in Hrole as [Hdefault Hchoice].
    unfold UserRegistrationSerializer.validate. simpl.
    case_bool_decide; [by intros [=]|].
    unfold UserRegistrationSerializer.create. simpl.
    destruct (_ && _); [|by intros [=]].
    intros [= <- <-]. simpl.
    destruct (role_value_cases data) as (Hnone & Hsome & Hform & Hjson).
    split_and!; [done| | | |done].
    + intros Hr. by rewrite Hdefault, Hnone.
    + intros r' Hr Hr'. by rewrite Hdefault, (Hsome r').
    + intros Hr. destruct (reg_html data) eqn:Hhtml.
      * split; [done|]. by rewrite Hdefault, Hform.
      * rewrite Hjson in Hdefault by done. simpl in Hdefault.
        destruct Hchoice as [Hc|Hc]; rewrite Hdefault in Hc; discriminate Hc.
  - intros data now db u e p c Hu He Hp Hc Hu0 Hun Hu1 He0 Hen He1 Hp0 Hpn Hp1
      Hpc Hfu Hfe Hrole.
    unfold RegisterView.create, UserRegistrationSerializer.is_valid,
      UserRegistrationSerializer.to_internal_value.
    rewrite Hu, He, Hp, Hc.
    rewrite (required_field_inl "username" u); [|done|done|]; last first.
    { rewrite Hu1. simpl.
      apply bool_decide_eq_true_2. eapply Forall_impl; [exact Hfu|].
      by intros x [? _]. }
    rewrite (required_field_inl "email" e); [|done|done|]; last first.
    { rewrite He1. simpl.
      apply bool_decide_eq_true_2. eapply Forall_impl; [exact Hfe|].
      by intros x [? _]. }
    rewrite (required_field_inl "password" p) by done.
    rewrite (required_field_inl "password_confirm" c)
      by (by rewrite ?Hpc).
    assert (UserRegistrationSerializer.role_field
              (UserRegistrationSerializer.role_value data)
            = inl (requested_role data)) as ->.
    { unfold UserRegistrationSerializer.role_value, requested_role.
      destruct Hrole as [Hrole|[-> ->]]; [|done].
      repeat (apply elem_of_cons in Hrole as [->|Hrole]);
        [by destruct (reg_html data)..|].
      by apply elem_of_nil in Hrole. }
    unfold UserRegistrationSerializer.validate. simpl.
    rewrite bool_decide_eq_false_2 by (by rewrite Hpc; intros ?).
    unfold UserRegistrationSerializer.create,
      UserRegistrationSerializer.unique_username,
      UserRegistrationSerializer.unique_email. simpl.
    rewrite !bool_decide_eq_true_2.
    + simpl. by eexists _, _.
    + eapply Forall_impl; [exact Hfe|]. by intros x [_ ?].
    + eapply Forall_impl; [exact Hfu|]. by intros x [_ ?].
  - intros user db Hrole. split.
    + rewrite get_queryset_spec_scoped_set. unfold spec_scoped_set.
      by rewrite bool_decide_eq_true_2.
    + intros Hwf t method Ht. split; [by apply admin_get_object|].
      unfold IsOwnerOrAdmin.has_object_permission.
      rewrite (bool_decide_eq_true_2 (role user = "admin")) by done.
      by destruct (bool_decide (method ∈ SAFE_METHODS)).
Qed.

(** A request without credentials that asks for the role "admin", against
    the tables of TaskAPITest: the account is created as an administrator. *)
Lemma C9_register_role_witness :
  let data :=
    {| reg_html := true; reg_username := Some "eve";
       reg_email := Some "eve@example.com";
       reg_password := Some "testpass123";
       reg_password_confirm := Some "testpass123";
       reg_role := Some "admin" |} in
  ∃ user db',
    @RegisterView.create Fixtures.plain_backend data 7 Fixtures.db
      = (HTTP_201_CREATED user, db')
    ∧ role user = "admin".
Proof.
  intros data.
  apply (proj1 (proj2 (@C9_register_role Fixtures.plain_backend))
           data 7 Fixtures.db "eve" "eve@example.com" "testpass123"
           "testpass123");
    try done; try compute_done.
Defined.

(** ** The filters of the list view *)

Lemma removeprefix_length (p s rest : string) :
  removeprefix p s = Some rest →
  String.length s = (String.length p + String.length rest)%nat.
Proof.
  revert s. induction p as [|a p IH]; intros [|b s]; simpl; try done.
  - by intros [= <-].
  - by intros [= <-].
  - destruct (Ascii.eqb a b); [|done]. intros Hrest. by rewrite (IH s Hrest).
Qed.

Lemma skip_char_length (chars : list string) (s rest : string) :
  Forall (λ c, c ≠ EmptyString) chars →
  skip_char chars s = Some rest →
  (String.length rest < String.length s)%nat.
Proof.
  unfold skip_char. induction chars as [|c chars IH]; simpl; [done|].
  intros [Hc Hchars]%Forall_cons.
  destruct (removeprefix c s) as [rest'|] eqn:Hprefix; [|by apply IH].
  intros [= ->]. apply removeprefix_length in Hprefix.
  destruct c; [done|]. simpl in Hprefix. lia.
Qed.

(** The length of the string is fuel enough: what [lstrip_chars] returns
    starts with none of the characters. *)
Lemma lstrip_chars_done (chars : list string) (fuel : nat) (s : string) :
  Forall (λ c, c ≠ EmptyString) chars →
  (String.length s ≤ fuel)%nat →
  skip_char chars (lstrip_chars chars fuel s) = None.
Proof.
  intros Hchars. revert s. induction fuel as [|fuel IH]; intros s Hfuel; simpl.
  - destruct (skip_char chars s) as [rest|] eqn:Hskip; [|done].
    apply skip_char_length in Hskip; [lia|done].
  - destruct (skip_char chars s) as [rest|] eqn:Hskip; [|done].
    apply IH. apply skip_char_length in Hskip; [lia|done].
Qed.

Lemma lstrip_done (s : string) : skip_char whitespace (lstrip s) = None.
Proof.
  apply lstrip_chars_done; [|done].
  apply Forall_forall. intros c Hc Hempty. subst c. revert Hc. compute_done.
Qed.

Lemma append_nil_l (b : string) : String.append EmptyString b = b.
Proof. reflexivity. Qed.

Lemma append_cons (c : Ascii.ascii) (a b : string) :
  String.append (String c a) b = String c (String.append a b).
Proof. reflexivity. Qed.

Lemma startswith_nil (s : string) : startswith s EmptyString = true.
Proof. by destruct s. Qed.

Lemma startswith_spec (s p : string) :
  startswith s p = true ↔ ∃ b, s = String.append p b.
Proof.
  revert s. induction p as [|c p IH]; intros s.
  - rewrite startswith_nil. split; [intros _; by exists s|done].
  - destruct s as [|c' s]; simpl.
    + split; [done|]. intros [b Hb]. rewrite append_cons in Hb. discriminate Hb.
    + destruct (Ascii.eqb c c') eqn:E.
      * apply Ascii.eqb_eq in E as ->. rewrite IH. split.
        -- intros [b ->]. by exists b.
        -- intros [b Hb]. rewrite append_cons in Hb. injection Hb as ->.
           by exists b.
      * apply Ascii.eqb_neq in E. split; [done|]. intros [b Hb].
        rewrite append_cons in Hb. injection Hb as -> _. done.
Qed.

Lemma contains_nil (p : string) :
  contains EmptyString p = startswith EmptyString p.
Proof. simpl. apply orb_false_r. Qed.

Lemma contains_cons (c : Ascii.ascii) (s p : string) :
  contains (String c s) p = startswith (String c s) p || contains s p.
Proof. reflexivity. Qed.

Lemma contains_spec (s p : string) :
  contains s p = true ↔ ∃ a b, s = String.append a (String.append p b).
Proof.
  induction s as [|c s IH].
  - rewrite contains_nil, startswith_spec. split.
    + intros [b Hb]. by exists EmptyString, b.
    + intros ([|c a] & b & Hb); [by exists b|].
      rewrite append_cons in Hb. discriminate Hb.
  - rewrite contains_cons, orb_true_iff, IH, startswith_spec. split.
    + intros [[b Hb]|(a & b & ->)].
      * by exists EmptyString, b.
      * by exists (String c a), b.
    + intros ([|c' a] & b & Hb).
      * left. by exists b.
      * right. rewrite append_cons in Hb. injection Hb as -> ->. by exists a, b.
Qed.

Lemma lower_ascii_idemp (c : Ascii.ascii) :
  lower_ascii (lower_ascii c) = lower_ascii c.
Proof. by destruct c as [[] [] [] [] [] [] [] []]. Qed.

Lemma lower_idemp (s : string) : lower (lower s) = lower s.
Proof.
  induction s as [|c s IH]; simpl; [done|]. by rewrite lower_ascii_idemp, IH.
Qed.

Lemma lower_append (a b : string) :
  lower (String.append a b) = String.append (lower a) (lower b).
Proof.
  induction a as [|c a IH]; [done|].
  rewrite !append_cons. simpl. by rewrite append_cons, IH.
Qed.

Lemma filter_all {A} (P : A → Prop) `{∀ x, Decision (P x)} (l : list A) :
  (∀ x, x ∈ l → P x) → filter P l = l.
Proof.
  induction l as [|x l IH]; intros Hl; [done|].
  rewrite filter_cons_True by (apply Hl; left).
  f_equal. apply IH. intros y Hy. apply Hl. by right.
Qed.

Lemma start_of_day_le (a moment : Z) :
  start_of_day a ≤ moment ↔ a ≤ day_of moment.
Proof.
  unfold start_of_day, day_of, MICROSECONDS_PER_DAY.
  pose proof (Z.div_mod moment 86400000000 ltac:(lia)).
  pose proof (Z.mod_pos_bound moment 86400000000 ltac:(lia)).
  split; intros; nia.
Qed.

Lemma le_end_of_day (b moment : Z) :
  moment ≤ end_of_day b ↔ day_of moment ≤ b.
Proof.
  unfold end_of_day, day_of, MICROSECONDS_PER_DAY.
  pose proof (Z.div_mod moment 86400000000 ltac:(lia)).
  pose proof (Z.mod_pos_bound moment 86400000000 ltac:(lia)).
  split; intros; nia.
Qed.

Lemma elem_of_completed_filter (v : option bool) (qs : QuerySet) (t : Task) :
  t ∈ TaskFilter.completed_filter v qs ↔
  t ∈ qs ∧ ∀ b, v = Some b → completed t = b.
Proof.
  destruct v as [b|]; simpl.
  - rewrite list_elem_of_filter. split.
    + intros [Hb Ht]. split; [done|]. by intros b' [= <-].
    + intros [Ht Hb]. split; [by apply Hb|done].
  - split; [by intros Ht|by intros [Ht _]].
Qed.

Lemma icontains_empty (s : string) : icontains s EmptyString = true.
Proof.
  unfold icontains. simpl. destruct (lower s); simpl; by rewrite ?startswith_nil.
Qed.

Lemma elem_of_title_filter (v : option string) (qs : QuerySet) (t : Task) :
  t ∈ TaskFilter.title_filter v qs ↔
  t ∈ qs ∧ ∀ s, v = Some s → icontains (title t) (strip s) = true.
Proof.
  destruct v as [s|]; simpl.
  - case_bool_decide as Hblank.
    + split; [|by intros [Ht _]]. intros Ht. split; [done|].
      intros s' [= <-]. rewrite Hblank. apply icontains_empty.
    + rewrite list_elem_of_filter. split.
      * intros [Hs Ht]. split; [done|]. by intros s' [= <-].
      * intros [Ht Hs]. split; [by apply Hs|done].
  - split; [by intros Ht|by intros [Ht _]].
Qed.

Lemma elem_of_created_at_filter (after before : option Z) (qs : QuerySet)
    (t : Task) :
  t ∈ TaskFilter.created_at_filter after before qs ↔
  t ∈ qs ∧ (∀ a, after = Some a → a ≤ day_of (created_at t))
  ∧ (∀ b, before = Some b → day_of (created_at t) ≤ b).
Proof.
  destruct after as [a|], before as [b|]; simpl;
    rewrite ?list_elem_of_filter, ?start_of_day_le, ?le_end_of_day.
  - split.
    + intros [[Ha Hb] Ht]. split_and!; [done|by intros ? [= <-]..].
    + intros (Ht & Ha & Hb). split; [split; [by apply Ha|by apply Hb]|done].
  - split.
    + intros [Ha Ht]. split_and!; [done|by intros ? [= <-]|done].
    + intros (Ht & Ha & _). split; [by apply Ha|done].
  - split.
    + intros [Hb Ht]. split_and!; [done|done|by intros ? [= <-]].
    + intros (Ht & _ & Hb). split; [by apply Hb|done].
  - split; [by intros Ht|by intros [Ht _]].
Qed.

(** X1. The three filters of [TaskFilter] compose with AND: a task is in
    the filtered queryset exactly when it is in the queryset and passes
    every filter whose parameter is given ([completed] equal, the title
    containing the [title] parameter, trimmed of white space,
    case-insensitively, the day of [created_at] from [created_at_after] to
    [created_at_before], both days included); the filtered rows keep the
    order of the queryset; with no parameter the queryset is returned as it
    is; and a date range whose upper day is before its lower day selects
    nothing.  The parameters are those the form of the filter set
    accepts. *)
Theorem X1_task_filter_conjunction (params : QueryParams) (qs : QuerySet) :
  params_accepted params →
  (∀ t, t ∈ TaskFilter.filter_queryset params qs ↔ t ∈ qs ∧ task_matches params t)
  ∧ TaskFilter.filter_queryset params qs `sublist_of` qs
  ∧ TaskFilter.filter_queryset no_params qs = qs
  ∧ (∀ a b, q_created_at_after params = Some a →
            q_created_at_before params = Some b → b < a →
            TaskFilter.filter_queryset params qs = []).
Proof.
  intros _. split_and!.
  - intros t. unfold TaskFilter.filter_queryset, task_matches.
    rewrite elem_of_created_at_filter, elem_of_title_filter,
      elem_of_completed_filter.
    split.
    + intros (((Ht & Hc) & Hs) & Ha & Hb). done.
    + intros (Ht & Hc & Hs & Ha & Hb). done.
  - apply DjangoFilterBackend_sublist.
  - reflexivity.
  - intros a b Ha Hb Hab. unfold TaskFilter.filter_queryset.
    rewrite Ha, Hb. simpl. apply filter_nil_Forall.
    intros t _. rewrite start_of_day_le, le_end_of_day. lia.
Qed.

(** A date range over the tasks of TaskAPITest: the day range 0 to 0 keeps
    the three tasks, all created on day 0, and the range 1 to 0 keeps
    none. *)
Lemma X1_task_filter_conjunction_witness :
  let inverted :=
    {| q_completed := None; q_title := None; q_created_at_after := Some 1;
       q_created_at_before := Some 0; q_search := None; q_ordering := None;
       q_page := None |} in
  TaskFilter.filter_queryset inverted (tasks Fixtures.db) = [].
Proof.
  intros inverted.
  apply (proj2 (proj2 (proj2
           (X1_task_filter_conjunction inverted (tasks Fixtures.db)
              ltac:(by intros s [=])))) 1 0);
    [reflexivity|reflexivity|lia].
Defined.

Lemma title_filter_filter (v : option string) (qs : QuerySet) :
  TaskFilter.title_filter v qs
  = filter (λ t, from_option (λ s, icontains (title t) (strip s) = true) True v)
      qs.
Proof.
  destruct v as [s|]; simpl.
  - case_bool_decide as Hblank; [|done]. symmetry. apply filter_all.
    intros t _. simpl. rewrite Hblank. apply icontains_empty.
  - symmetry. by apply filter_all.
Qed.

(** X2. The [title] filter is a case-insensitive substring match on the
    parameter trimmed of white space: with parameter [s] it keeps exactly
    the tasks whose lower-cased title is the lower-cased trimmed [s] with
    some text before and some text after it.  Hence two parameters that
    are the same once trimmed and lower-cased select the same tasks, a
    title that holds the trimmed parameter in any letter case is kept, and
    a parameter that is empty or all white space keeps every task.  The
    parameter is one the form of the filter set accepts: it holds no null
    character. *)
Theorem X2_title_filter_substring (s : string) (qs : QuerySet) :
  has_nul (strip s) = false →
  (∀ t, t ∈ TaskFilter.title_filter (Some s) qs ↔
        t ∈ qs ∧ ∃ a b, lower (title t)
                        = String.append a (String.append (lower (strip s)) b))
  ∧ (∀ s', lower (strip s') = lower (strip s) →
       TaskFilter.title_filter (Some s') qs = TaskFilter.title_filter (Some s) qs)
  ∧ (∀ t a b s', t ∈ qs → lower s' = lower (strip s) →
       title t = String.append a (String.append s' b) →
       t ∈ TaskFilter.title_filter (Some s) qs)
  ∧ (strip s = "" → TaskFilter.title_filter (Some s) qs = qs).
Proof.
  intros _. split_and!.
  - intros t. rewrite elem_of_title_filter. unfold icontains.
    rewrite <- contains_spec. split.
    + intros [Ht Hs]. split; [done|]. by apply Hs.
    + intros [Ht Hs]. split; [done|]. by intros s' [= <-].
  - intros s' Hs'. rewrite !title_filter_filter. apply list_filter_iff.
    intros t. simpl. unfold icontains. by rewrite Hs'.
  - intros t a b s' Ht Hs' Htitle. apply elem_of_title_filter.
    split; [done|]. intros s0 [= <-]. unfold icontains. apply contains_spec.
    exists (lower a), (lower b). by rewrite Htitle, !lower_append, Hs'.
  - intros Hblank. simpl. by rewrite bool_decide_eq_true_2.
Qed.

(** TaskAPITest: the parameter "task 1 ", with its trailing space, finds
    the title "User1 Task 1". *)
Lemma X2_title_filter_substring_witness :
  Fixtures.task1
    ∈ TaskFilter.title_filter (Some "task 1 ") [Fixtures.task1; Fixtures.task2].
Proof.
  apply (proj1 (proj2 (proj2 (X2_title_filter_substring "task 1 "
                                [Fixtures.task1; Fixtures.task2] eq_refl)))
           Fixtures.task1 "User1 " "" "Task 1").
  - compute_done.
  - reflexivity.
  - reflexivity.
Defined.

(** ** The list view over the tasks table *)

Lemma spec_scoped_set_can_see (caller : User) (db : DB) :
  spec_scoped_set caller db = filter (can_see caller) (tasks db).
Proof.
  unfold spec_scoped_set, can_see. case_bool_decide as Hrole.
  - symmetry. apply filter_all. intros t _. by left.
  - apply list_filter_iff. intros t. split; [by right|].
    by intros [Hadmin|Howner].
Qed.

Lemma completed_filter_filter (v : option bool) (qs : QuerySet) :
  TaskFilter.completed_filter v qs
  = filter (λ t, from_option (λ b, completed t = b) True v) qs.
Proof.
  destruct v as [b|]; simpl; [done|]. symmetry. by apply filter_all.
Qed.

Lemma created_at_filter_filter (after before : option Z) (qs : QuerySet) :
  TaskFilter.created_at_filter after before qs
  = filter (λ t, from_option (λ a, a ≤ day_of (created_at t)) True after
                 ∧ from_option (λ b, day_of (created_at t) ≤ b) True before) qs.
Proof.
  destruct after as [a|], before as [b|]; simpl.
  - apply list_filter_iff. intros t. by rewrite start_of_day_le, le_end_of_day.
  - apply list_filter_iff. intros t. rewrite start_of_day_le.
    split; [by intros Ha|by intros [Ha _]].
  - apply list_filter_iff. intros t. rewrite le_end_of_day.
    split; [by intros Hb|by intros [_ Hb]].
  - symmetry. by apply filter_all.
Qed.

Lemma filter_queryset_task_matches (params : QueryParams) (qs : QuerySet) :
  TaskListCreateView.filter_queryset params qs = filter (task_matches params) qs.
Proof.
  change (TaskListCreateView.filter_queryset params qs)
    with (TaskFilter.filter_queryset params qs).
  unfold TaskFilter.filter_queryset.
  rewrite completed_filter_filter, title_filter_filter, created_at_filter_filter.
  rewrite !list_filter_filter. apply list_filter_iff. intros t.
  unfold task_matches.
  destruct (q_completed params) as [c|], (q_title params) as [s|],
    (q_created_at_after params) as [a|], (q_created_at_before params) as [b|];
    simpl.
  all: split;
    [ intros Hall; destruct_and!; split_and!; intros x Hx; simplify_eq; done
    | intros (Hc & Hs & Ha & Hb); split_and!; eauto ].
Qed.

(** X3. What ListTasks reports is read off the tasks table: the count of a
    200 answer is the number of rows of the table that the caller may see
    (all of them for an administrator, her own otherwise) and that pass the
    filters, whatever page is asked for; every task on the page is such a
    row; and a page holds at most 20 tasks.  The parameters are those the
    form of the filter set accepts. *)
Theorem X3_list_count_over_table (caller : User) (params : QueryParams) (db : DB)
    (page : Page) :
  params_accepted params →
  TaskListCreateView.get caller params db = HTTP_200_OK page →
  count page
    = Z.of_nat (length (filter (λ t, can_see caller t ∧ task_matches params t)
                          (tasks db)))
  ∧ (∀ t, t ∈ results page →
          t ∈ tasks db ∧ can_see caller t ∧ task_matches params t)
  ∧ (length (results page) ≤ 20)%nat.
Proof.
  intros _. unfold TaskListCreateView.get.
  destruct (PageNumberPagination.paginate_queryset _ _) as [page'|] eqn:E;
    [|done].
  intros [= ->].
  pose proof E as [Hsub Hcount]%paginate_queryset_sublist.
  split_and!.
  - rewrite Hcount, filter_queryset_task_matches,
      get_queryset_spec_scoped_set, spec_scoped_set_can_see,
      list_filter_filter.
    do 2 f_equal. apply list_filter_iff. intros t.
    split; intros [H1 H2]; split; assumption.
  - intros t Ht. eapply elem_of_sublist in Ht; [|exact Hsub].
    rewrite filter_queryset_task_matches in Ht.
    apply list_elem_of_filter in Ht as [Hmatch Ht].
    apply elem_of_get_queryset in Ht as [Ht Hsee]. done.
  - revert E. unfold PageNumberPagination.paginate_queryset, Paginator.page.
    destruct (Paginator.validate_number _ _ _) as [number|] eqn:Hn; [|done].
    intros [= <-]. simpl. unfold Paginator.slice, PAGE_SIZE.
    rewrite length_take. clear Hsub Hcount Hn.
    destruct (_ >=? _) eqn:Htop; unfold PAGE_SIZE in *; [|lia].
    rewrite Z.geb_leb in Htop. apply Z.leb_le in Htop. lia.
Qed.

(** TaskAPITest: the administrator asks for the titles holding "Task 1 ",
    sent with its trailing space, and gets the two tasks "User2 Task 1" and
    "User1 Task 1", newest first. *)
Lemma X3_list_count_over_table_witness :
  let params :=
    {| q_completed := None; q_title := Some "Task 1 ";
       q_created_at_after := None; q_created_at_before := None;
       q_search := None; q_ordering := None; q_page := None |} in
  let page :=
    {| count := 2; next := None; previous := None;
       results := [Fixtures.task3; Fixtures.task1] |} in
  TaskListCreateView.get Fixtures.admin_user params Fixtures.db = HTTP_200_OK page
  ∧ count page
    = Z.of_nat (length (filter (λ t, can_see Fixtures.admin_user t
                                     ∧ task_matches params t)
                          (tasks Fixtures.db))).
Proof.
  intros params page.
  assert (TaskListCreateView.get Fixtures.admin_user params Fixtures.db
          = HTTP_200_OK page) as Hget by (by vm_compute).
  split; [exact Hget|].
  assert (params_accepted params) as Hparams
    by (intros s [= <-]; by vm_compute).
  exact (proj1 (X3_list_count_over_table Fixtures.admin_user params Fixtures.db
                  page Hparams Hget)).
Defined.

(** ** Isolation between users *)

Lemma insert_created_desc_head (t : Task) (l : list Task) :
  Forall (λ x, created_at x ≤ created_at t) l →
  insert_created_desc t l = t :: l.
Proof.
  destruct l as [|x l]; [done|]. intros [Hx _]%Forall_cons. simpl.
  by replace (created_at x <=? created_at t) with true by lia.
Qed.

Lemma filter_insert_created_desc (P : Task → Prop) `{∀ x, Decision (P x)}
    (t : Task) (l : list Task) :
  StronglySorted (λ x y, created_at y ≤ created_at x) l →
  filter P (insert_created_desc t l)
  = if decide (P t) then insert_created_desc t (filter P l) else filter P l.
Proof.
  induction 1 as [|x l Hsorted IH Hx]; simpl.
  - rewrite filter_cons, filter_nil. by destruct (decide (P t)).
  - destruct (created_at x <=? created_at t) eqn:E.
    + rewrite (filter_cons _ t). destruct (decide (P t)) as [Ht|Ht]; [|done].
      symmetry. apply insert_created_desc_head.
      apply Forall_forall. intros y [_ Hy]%list_elem_of_filter.
      apply elem_of_cons in Hy as [->|Hy]; [lia|].
      rewrite Forall_forall in Hx. specialize (Hx y Hy). simpl in Hx. lia.
    + rewrite (filter_cons _ x), IH, (filter_cons _ x).
      destruct (decide (P x)) as [Hpx|Hpx], (decide (P t)) as [Ht|Ht];
        simpl; try done.
      by rewrite E.
Qed.

(** Sorting newest first and filtering commute: the sort is stable. *)
Lemma filter_order_by_created_desc (P : Task → Prop) `{∀ x, Decision (P x)}
    (l : list Task) :
  filter P (order_by_created_desc l) = order_by_created_desc (filter P l).
Proof.
  induction l as [|t l IH]; [done|].
  change (order_by_created_desc (t :: l))
    with (insert_created_desc t (order_by_created_desc l)).
  rewrite filter_insert_created_desc
    by (apply Sorted_StronglySorted; [apply _|apply order_by_created_desc_Sorted]).
  rewrite IH, filter_cons. by destruct (decide (P t)).
Qed.

Lemma get_queryset_order_by (caller : User) (db : DB) :
  TaskListCreateView.get_queryset caller db
  = order_by_created_desc (spec_scoped_set caller db).
Proof.
  unfold TaskListCreateView.get_queryset, spec_scoped_set,
    TaskManager.filter_user, TaskManager.all.
  case_bool_decide; [done|]. apply filter_order_by_created_desc.
Qed.

Lemma filter_fmap_unchanged {A} (P : A → Prop) `{∀ x, Decision (P x)}
    (f : A → A) (l : list A) :
  (∀ x, x ∈ l → f x = x ∨ (¬ P x ∧ ¬ P (f x))) →
  filter P (f <$> l) = filter P l.
Proof.
  induction l as [|x l IH]; intros Hl; [done|].
  rewrite fmap_cons, !filter_cons, IH by (intros y Hy; apply Hl; by right).
  destruct (Hl x) as [->|[Hx Hfx]]; [by left|done|].
  by rewrite !decide_False.
Qed.

Lemma filter_filter_unchanged {A} (P Q : A → Prop) `{∀ x, Decision (P x)}
    `{∀ x, Decision (Q x)} (l : list A) :
  (∀ x, x ∈ l → P x → Q x) → filter P (filter Q l) = filter P l.
Proof.
  intros Hl. rewrite list_filter_filter.
  induction l as [|x l IH]; [done|].
  rewrite !filter_cons, IH by (intros y Hy; apply Hl; by right).
  destruct (decide (P x)) as [Hx|Hx].
  - rewrite decide_True; [done|]. split; [done|]. apply Hl; [by left|done].
  - rewrite decide_False; [done|]. by intros [? _].
Qed.

(** What a request of a caller who is not an administrator does to the
    rows of another owner: nothing. *)
Lemma run_op_other_rows (op : Op) (db : DB) (owner : Z) :
  db_wf db →
  role (op_caller op) ≠ "admin" →
  user_id (op_caller op) ≠ owner →
  filter (λ t, task_user t = owner) (tasks (run_op op db).2)
  = filter (λ t, task_user t = owner) (tasks db).
Proof.
  intros Hwf Hrole Hother.
  assert (∀ method partial caller pk data now,
    role caller ≠ "admin" → user_id caller ≠ owner →
    filter (λ t, task_user t = owner)
      (tasks (TaskDetailView.update method partial caller pk data now db).2)
    = filter (λ t, task_user t = owner) (tasks db)) as Hupdate.
  { intros method partial caller pk data now Hr Ho.
    unfold TaskDetailView.update.
    destruct (TaskDetailView.get_object _ _ _ _) as [instance|exc] eqn:Hobj;
      [|done].
    destruct (TaskCreateUpdateSerializer.is_valid _ _) as [v|errors]; [|done].
    apply get_object_inl in Hobj as (Hin & _ & [Hadmin|Howner]); [done|].
    simpl. apply filter_fmap_unchanged. intros x Hx.
    case_bool_decide as Hid; [right|by left].
    rewrite (db_wf_task_id_inj db x instance Hwf Hx Hin Hid). simpl.
    split; congruence. }
  destruct op as [caller data now|caller pk [|data now|data now|]]; simpl in *.
  - destruct (post_inversion caller data now db)
      as [[errors ->]|(body & t & -> & _ & Huser)]; [done|].
    simpl. rewrite filter_app, filter_cons_False by congruence.
    by rewrite filter_nil, app_nil_r.
  - unfold TaskDetailView.get.
    by destruct (TaskDetailView.get_object _ _ _ _).
  - by apply Hupdate.
  - by apply Hupdate.
  - unfold TaskDetailView.delete.
    destruct (TaskDetailView.get_object _ _ _ _) as [instance|exc] eqn:Hobj;
      [|done].
    apply get_object_inl in Hobj as (Hin & _ & [Hadmin|Howner]); [done|].
    simpl. apply filter_filter_unchanged. intros x Hx Hpx Hid.
    rewrite (db_wf_task_id_inj db x instance Hwf Hx Hin Hid) in Hpx.
    congruence.
Qed.

(** X4. Users are isolated from each other: a request of a caller who is
    not an administrator (create, update or delete, accepted or not) changes
    nothing of what another user who is not an administrator observes.  Her
    list answers for every query, her statistics and her answer for every
    task key are the same before and after. *)
Theorem X4_isolation {F : Type} `{FloatArith F} (op : Op) (other : User) (db : DB) :
  db_wf db →
  role (op_caller op) ≠ "admin" →
  role other ≠ "admin" →
  user_id (op_caller op) ≠ user_id other →
  let db' := (run_op op db).2 in
  (∀ params,
     TaskListCreateView.get other params db'
     = TaskListCreateView.get other params db)
  ∧ task_stats (F:=F) other db' = task_stats other db
  ∧ (∀ pk, (TaskDetailView.get other pk db').1 = (TaskDetailView.get other pk db).1).
Proof.
  intros Hwf Hrole Hother Hid db'.
  assert (TaskListCreateView.get_queryset other db'
          = TaskListCreateView.get_queryset other db) as Hqs.
  { rewrite !get_queryset_order_by. unfold spec_scoped_set.
    rewrite !bool_decide_eq_false_2 by done.
    unfold db'. by rewrite run_op_other_rows. }
  split_and!.
  - intros params. unfold TaskListCreateView.get. by rewrite Hqs.
  - unfold task_stats.
    change (task_stats_queryset other db')
      with (TaskListCreateView.get_queryset other db').
    change (task_stats_queryset other db)
      with (TaskListCreateView.get_queryset other db).
    by rewrite Hqs.
  - intros pk. unfold TaskDetailView.get, TaskDetailView.get_object.
    change (TaskDetailView.get_queryset other db')
      with (TaskListCreateView.get_queryset other db').
    change (TaskDetailView.get_queryset other db)
      with (TaskListCreateView.get_queryset other db).
    rewrite Hqs. by destruct (filter _ _) as [|x [|y l]]; [|destruct (forallb _ _)|].
Qed.

(** user2 deletes her task 3; user1 still has her two tasks listed. *)
Lemma X4_isolation_witness :
  TaskListCreateView.get Fixtures.user1 no_params
    (run_op (OnTask Fixtures.user2 3 DeleteTask) Fixtures.db).2
  = TaskListCreateView.get Fixtures.user1 no_params Fixtures.db.
Proof.
  apply (X4_isolation (F:=Q) (OnTask Fixtures.user2 3 DeleteTask)
           Fixtures.user1 Fixtures.db).
  - split; compute_done.
  - done.
  - done.
  - done.
Defined.

(** ** The views on one task *)

(** A row of the table that the caller may see is the object every method
    works on. *)
Lemma can_see_get_object (method : Method) (caller : User) (db : DB) (t : Task) :
  db_wf db → t ∈ tasks db → can_see caller t →
  TaskDetailView.get_object method caller (task_id t) db = inl t.
Proof.
  intros [Hnodup _] Ht Hsee.
  unfold TaskDetailView.get_object.
  assert (filter (λ x, task_id x = task_id t)
            (TaskDetailView.get_queryset caller db) = [t]) as ->.
  { change (TaskDetailView.get_queryset caller db)
      with (TaskListCreateView.get_queryset caller db).
    apply filter_task_id_unique.
    - rewrite get_queryset_spec_scoped_set, spec_scoped_set_can_see.
      refine (sublist_NoDup _ _ Hnodup _).
      apply fmap_sublist, sublist_filter.
    - by apply elem_of_get_queryset. }
  simpl. unfold IsOwnerOrAdmin.has_object_permission.
  destruct Hsee as [Hadmin|Howner].
  - rewrite (bool_decide_eq_true_2 (role caller = "admin")) by done.
    by destruct (bool_decide (method ∈ SAFE_METHODS)).
  - rewrite (bool_decide_eq_true_2 (task_user t = user_id caller)) by done.
    rewrite orb_true_r. by destruct (bool_decide (method ∈ SAFE_METHODS)).
Qed.

(** X5. The permission class never denies an object that the queryset of
    the detail view yields, so no request on one task is ever answered
    403 Forbidden: access that is not granted shows as 404.  When the keys
    of the table are unique, no such request is answered 500 either. *)
Theorem X5_detail_never_forbidden (request : DetailRequest) (caller : User)
    (pk : Z) (db : DB) :
  (∀ method obj,
     obj ∈ TaskDetailView.get_queryset caller db →
     IsOwnerOrAdmin.has_object_permission method caller obj = true)
  ∧ (TaskDetailView.dispatch request caller pk db).1 ≠ HTTP_403_FORBIDDEN
  ∧ (db_wf db →
     (TaskDetailView.dispatch request caller pk db).1
       ≠ HTTP_500_INTERNAL_SERVER_ERROR).
Proof.
  assert (∀ method obj,
     obj ∈ TaskDetailView.get_queryset caller db →
     IsOwnerOrAdmin.has_object_permission method caller obj = true) as Hperm.
  { intros method obj [_ Hsee]%elem_of_detail_queryset.
    unfold IsOwnerOrAdmin.has_object_permission.
    destruct Hsee as [Hadmin|Howner].
    - rewrite (bool_decide_eq_true_2 (role caller = "admin")) by done.
      by destruct (bool_decide (method ∈ SAFE_METHODS)).
    - rewrite (bool_decide_eq_true_2 (task_user obj = user_id caller)) by done.
      rewrite orb_true_r. by destruct (bool_decide (method ∈ SAFE_METHODS)). }
  assert (∀ method,
     TaskDetailView.get_object method caller pk db ≠ inr PermissionDenied)
    as Hdenied.
  { intros method. unfold TaskDetailView.get_object.
    destruct (filter _ _) as [|x [|y l]] eqn:E; [done| |done].
    simpl. rewrite Hperm; [done|].
    assert (x ∈ filter (λ t, task_id t = pk)
                  (TaskDetailView.get_queryset caller db)) as Hx
      by (rewrite E; left).
    by apply list_elem_of_filter in Hx as [_ Hx]. }
  assert (db_wf db → ∀ method,
     TaskDetailView.get_object method caller pk db ≠ inr MultipleObjectsReturned)
    as Hmultiple.
  { intros [Hnodup _] method. unfold TaskDetailView.get_object.
    destruct (filter _ _) as [|x [|y l]] eqn:E; [done| |].
    { by destruct (forallb _ _). }
    exfalso.
    assert (NoDup (task_id <$> filter (λ t, task_id t = pk)
                     (TaskDetailView.get_queryset caller db))) as Hnd.
    { change (TaskDetailView.get_queryset caller db)
        with (TaskListCreateView.get_queryset caller db).
      rewrite get_queryset_spec_scoped_set, spec_scoped_set_can_see.
      refine (sublist_NoDup _ _ Hnodup _).
      apply fmap_sublist. etrans; apply sublist_filter. }
    assert (x ∈ filter (λ t, task_id t = pk)
                  (TaskDetailView.get_queryset caller db)) as Hx
      by (rewrite E; left).
    assert (y ∈ filter (λ t, task_id t = pk)
                  (TaskDetailView.get_queryset caller db)) as Hy
      by (rewrite E; right; left).
    apply list_elem_of_filter in Hx as [Hx _].
    apply list_elem_of_filter in Hy as [Hy _].
    rewrite E in Hnd. simpl in Hnd.
    apply NoDup_cons in Hnd as [Hnotin _]. apply Hnotin.
    rewrite Hx, <- Hy. left. }
  split_and!; [done| |].
  - destruct request; simpl;
      unfold TaskDetailView.get, TaskDetailView.put, TaskDetailView.patch,
        TaskDetailView.update, TaskDetailView.delete.
    all: match goal with
         | |- context [TaskDetailView.get_object ?m _ _ _] =>
             pose proof (Hdenied m) as Hm;
             destruct (TaskDetailView.get_object m caller pk db)
               as [instance|[| | | |]]
         end; simpl; try done.
    all: by destruct (TaskCreateUpdateSerializer.is_valid _ _).
  - intros Hwf. destruct request; simpl;
      unfold TaskDetailView.get, TaskDetailView.put, TaskDetailView.patch,
        TaskDetailView.update, TaskDetailView.delete.
    all: match goal with
         | |- context [TaskDetailView.get_object ?m _ _ _] =>
             pose proof (Hmultiple Hwf m) as Hm;
             destruct (TaskDetailView.get_object m caller pk db)
               as [instance|[| | | |]]
         end; simpl; try done.
    all: by destruct (TaskCreateUpdateSerializer.is_valid _ _).
Qed.

(** user1 asking to delete the task of user2: 404, not 403. *)
Lemma X5_detail_never_forbidden_witness :
  (TaskDetailView.dispatch DeleteTask Fixtures.user1 3 Fixtures.db).1
    ≠ HTTP_500_INTERNAL_SERVER_ERROR.
Proof.
  apply (X5_detail_never_forbidden DeleteTask Fixtures.user1 3 Fixtures.db).
  split; compute_done.
Defined.

(** X6. GetTask over a table with unique keys: for the key of a task of the
    table, the answer is 200 with that task when the caller is an
    administrator or the owner, and 404 otherwise; for a key no task has,
    every request of every caller, an administrator included, is answered
    404.  The database is never changed by GetTask. *)
Theorem X6_get_task (caller : User) (db : DB) :
  db_wf db →
  (∀ t, t ∈ tasks db →
     TaskDetailView.dispatch GetTask caller (task_id t) db
     = (if decide (can_see caller t) then HTTP_200_OK (TaskRepr t)
        else HTTP_404_NOT_FOUND, db))
  ∧ (∀ pk request,
       (∀ t, t ∈ tasks db → task_id t ≠ pk) →
       TaskDetailView.dispatch request caller pk db = (HTTP_404_NOT_FOUND, db)).
Proof.
  intros Hwf. split.
  - intros t Ht. destruct (decide (can_see caller t)) as [Hsee|Hsee].
    + simpl. unfold TaskDetailView.get. by rewrite can_see_get_object.
    + apply dispatch_Http404. intros method. apply get_object_Http404.
      intros t' Ht' Hid.
      rewrite (db_wf_task_id_inj db t' t Hwf Ht' Ht Hid).
      unfold can_see in Hsee. split; intros ?; apply Hsee; [by left|by right].
  - intros pk request Hmissing. apply dispatch_Http404. intros method.
    apply get_object_Http404. intros t Ht Hid. by destruct (Hmissing t Ht).
Qed.

(** TaskAPITest.test_get_specific_task: user1 gets her task 1. *)
Lemma X6_get_task_witness :
  TaskDetailView.dispatch GetTask Fixtures.user1 1 Fixtures.db
  = (HTTP_200_OK (TaskRepr Fixtures.task1), Fixtures.db).
Proof.
  apply (proj1 (X6_get_task Fixtures.user1 Fixtures.db
                  ltac:(split; compute_done)) Fixtures.task1).
  compute_done.
Defined.

Lemma filter_iff_elem_of {A} (P Q : A → Prop) `{∀ x, Decision (P x)}
    `{∀ x, Decision (Q x)} (l : list A) :
  (∀ x, x ∈ l → P x ↔ Q x) → filter P l = filter Q l.
Proof.
  induction l as [|x l IH]; intros Hl; [done|].
  rewrite !filter_cons, IH by (intros y Hy; apply Hl; by right).
  destruct (decide (P x)) as [Hx|Hx].
  - rewrite decide_True; [done|]. apply Hl; [by left|done].
  - rewrite decide_False; [done|]. intros Hq. apply Hx, Hl; [by left|done].
Qed.

Lemma length_filter_other_keys (l : list Task) (t : Task) :
  NoDup (task_id <$> l) → t ∈ l →
  S (length (filter (λ x, task_id x ≠ task_id t) l)) = length l.
Proof.
  intros Hnodup Ht.
  rewrite <- (Permutation_length
                (filter_app_complement (λ x, task_id x = task_id t) l)).
  by rewrite filter_task_id_unique, length_app.
Qed.

(** X7. DeleteTask by an administrator or the owner, over a table with
    unique keys: the answer is 204, exactly that task leaves the table (the
    other rows stay as they are and in their order), the key is not given
    out again by the sequence, and from then on every request for that key,
    of any caller, is answered 404. *)
Theorem X7_delete_task (caller : User) (db : DB) (t : Task) :
  db_wf db → t ∈ tasks db → can_see caller t →
  ∃ db',
    TaskDetailView.dispatch DeleteTask caller (task_id t) db
      = (HTTP_204_NO_CONTENT, db')
    ∧ tasks db' = filter (λ x, x ≠ t) (tasks db)
    ∧ S (length (tasks db')) = length (tasks db)
    ∧ users db' = users db
    ∧ next_task_id db' = next_task_id db
    ∧ db_wf db'
    ∧ ∀ request caller',
        TaskDetailView.dispatch request caller' (task_id t) db'
        = (HTTP_404_NOT_FOUND, db').
Proof.
  intros Hwf Ht Hsee.
  exists (set_tasks db (filter (λ x, task_id x ≠ task_id t) (tasks db))).
  assert (TaskDetailView.dispatch DeleteTask caller (task_id t) db
          = (HTTP_204_NO_CONTENT,
             set_tasks db (filter (λ x, task_id x ≠ task_id t) (tasks db))))
    as Hdelete.
  { simpl. unfold TaskDetailView.delete. by rewrite can_see_get_object. }
  split_and!; [done| | |done|done| |].
  - simpl. apply filter_iff_elem_of. intros x Hx. split.
    + intros Hid ->. done.
    + intros Hne Hid. apply Hne. by apply (db_wf_task_id_inj db).
  - simpl. apply length_filter_other_keys; [by destruct Hwf|done].
  - pose proof (db_wf_dispatch DeleteTask caller (task_id t) db Hwf) as Hwf'.
    by rewrite Hdelete in Hwf'.
  - intros request caller'. apply dispatch_Http404. intros method.
    apply get_object_Http404. simpl.
    intros x [Hid _]%list_elem_of_filter. done.
Qed.

(** TaskAPITest.test_delete_task: user1 deletes her task 1; two tasks are
    left. *)
Lemma X7_delete_task_witness :
  ∃ db',
    TaskDetailView.dispatch DeleteTask Fixtures.user1 1 Fixtures.db
      = (HTTP_204_NO_CONTENT, db')
    ∧ tasks db' = [Fixtures.task2; Fixtures.task3].
Proof.
  destruct (X7_delete_task Fixtures.user1 Fixtures.db Fixtures.task1)
    as (db' & Hdelete & Htasks & _).
  - split; compute_done.
  - compute_done.
  - by right.
  - exists db'. split; [done|]. rewrite Htasks. by vm_compute.
Defined.

Lemma char_field_title (partial : bool) (v : option string) :
  TaskCreateUpdateSerializer.char_field "title" (negb partial) false v
  = if decide (title_accepted partial v) then inl (strip <$> v) else inr ["title"].
Proof.
  unfold TaskCreateUpdateSerializer.char_field, title_accepted.
  destruct v as [s|]; simpl.
  - case_bool_decide as Hblank.
    + rewrite decide_False; [done|]. by intros [? _].
    + destruct (has_nul (strip s)) eqn:Hnul.
      * rewrite decide_False; [done|]. by intros [_ ?].
      * by rewrite decide_True.
  - by destruct partial.
Qed.

Lemma char_field_description (v : option string) :
  TaskCreateUpdateSerializer.char_field "description" false true v
  = if decide (description_accepted v) then inl (strip <$> v)
    else inr ["description"].
Proof.
  unfold TaskCreateUpdateSerializer.char_field, description_accepted.
  destruct v as [s|]; simpl; [|done].
  case_bool_decide as Hblank.
  - rewrite decide_True by (by rewrite Hblank). by rewrite Hblank.
  - destruct (has_nul (strip s)) eqn:Hnul.
    + by rewrite decide_False.
    + by rewrite decide_True.
Qed.

(** The serializer accepts exactly the bodies whose title and description
    are accepted, and names the rejected fields otherwise. *)
Lemma task_is_valid_spec (partial : bool) (data : TaskData) :
  TaskCreateUpdateSerializer.is_valid partial data
  = if decide (title_accepted partial (data_title data)
               ∧ description_accepted (data_description data))
    then inl {| TaskCreateUpdateSerializer.v_title := strip <$> data_title data;
                TaskCreateUpdateSerializer.v_description :=
                  strip <$> data_description data;
                TaskCreateUpdateSerializer.v_completed :=
                  TaskCreateUpdateSerializer.boolean_field (data_html data)
                    partial (data_completed data) |}
    else inr (rejected_fields partial data).
Proof.
  unfold TaskCreateUpdateSerializer.is_valid, rejected_fields.
  rewrite char_field_title, char_field_description.
  destruct (decide (title_accepted _ _)), (decide (description_accepted _));
    simpl.
  - by rewrite decide_True.
  - rewrite decide_False; [done|]. by intros [_ ?].
  - rewrite decide_False; [done|]. by intros [? _].
  - rewrite decide_False; [done|]. by intros [? _].
Qed.

(** X8. UpdateTask by an administrator or the owner, over a table with
    unique keys; PATCH is the partial update, PUT the full one.  When the
    body is accepted (a title that is not blank once trimmed, which PATCH
    may leave out, and no null character in title or description), the
    update sets the fields the body gives, title and description trimmed
    of white space, on exactly that row and stamps its [updated_at]; a PUT
    sent as a form without [completed] sets [completed] to false, any
    other request without it keeps the stored value; key, owner and
    [created_at] stay, every other row stays, and the answer is 200 with
    the three fields of the new row.  When the body is not accepted the
    answer is 400 with the rejected fields, and nothing changes. *)
Theorem X8_update_task (caller : User) (db : DB) (t : Task) (data : TaskData)
    (now : Z) (partial : bool) :
  db_wf db → t ∈ tasks db → can_see caller t →
  let request := if partial then PatchTask data now else PutTask data now in
  let t' := {| task_id := task_id t;
               title := default (title t) (strip <$> data_title data);
               description :=
                 default (description t) (strip <$> data_description data);
               completed :=
                 match data_completed data with
                 | Some b => b
                 | None => if data_html data && negb partial then false
                           else completed t
                 end;
               created_at := created_at t;
               updated_at := now;
               task_user := task_user t |} in
  (title_accepted partial (data_title data) →
   description_accepted (data_description data) →
   TaskDetailView.dispatch request caller (task_id t) db
   = (HTTP_200_OK (TaskFieldsRepr (title t', description t', completed t')),
      set_tasks db ((λ x, if bool_decide (x = t) then t' else x) <$> tasks db)))
  ∧ (¬ (title_accepted partial (data_title data)
        ∧ description_accepted (data_description data)) →
     TaskDetailView.dispatch request caller (task_id t) db
     = (HTTP_400_BAD_REQUEST (rejected_fields partial data), db)).
Proof.
  intros Hwf Ht Hsee request t'.
  assert (TaskDetailView.dispatch request caller (task_id t) db
          = TaskDetailView.update (if partial then PATCH else PUT) partial
              caller (task_id t) data now db) as ->
    by (by destruct partial).
  unfold TaskDetailView.update.
  rewrite can_see_get_object, task_is_valid_spec by done.
  split.
  - intros Htitle Hdescription. rewrite decide_True by done.
    unfold TaskCreateUpdateSerializer.update.
    assert (TaskCreateUpdateSerializer.set_attrs
              {| TaskCreateUpdateSerializer.v_title := strip <$> data_title data;
                 TaskCreateUpdateSerializer.v_description :=
                   strip <$> data_description data;
                 TaskCreateUpdateSerializer.v_completed :=
                   TaskCreateUpdateSerializer.boolean_field (data_html data)
                     partial (data_completed data) |} now t = t') as ->.
    { unfold TaskCreateUpdateSerializer.set_attrs, t'. simpl. f_equal.
      unfold TaskCreateUpdateSerializer.boolean_field.
      destruct (data_completed data); [done|].
      by destruct (data_html data && negb partial). }
    simpl. do 2 f_equal. apply list_fmap_ext.
    intros i x Hx%list_elem_of_lookup_2.
    rewrite (bool_decide_ext (task_id x = task_id t) (x = t)); [done|].
    split; [|by intros ->]. by apply (db_wf_task_id_inj db).
  - intros Hrejected. by rewrite decide_False.
Qed.

(** user1 sends a PUT for her task 2, which is completed, as a form with a
    title only: the title changes, the description stays, and [completed]
    becomes false.  The same body sent as PATCH keeps [completed]. *)
Lemma X8_update_task_witness :
  let data := {| data_html := true; data_title := Some " Updated Task Title ";
                 data_description := None; data_completed := None;
                 data_other := ∅ |} in
  (TaskDetailView.dispatch (PutTask data 9) Fixtures.user1 2 Fixtures.db).1
  = HTTP_200_OK
      (TaskFieldsRepr ("Updated Task Title", "Task 2 for user 1", false))
  ∧ (TaskDetailView.dispatch (PatchTask data 9) Fixtures.user1 2 Fixtures.db).1
    = HTTP_200_OK
        (TaskFieldsRepr ("Updated Task Title", "Task 2 for user 1", true)).
Proof.
  intros data. split.
  - exact (f_equal fst
             (proj1 (X8_update_task Fixtures.user1 Fixtures.db Fixtures.task2
                       data 9 false ltac:(split; compute_done)
                       ltac:(compute_done) ltac:(by right))
                ltac:(by vm_compute) ltac:(done))).
  - exact (f_equal fst
             (proj1 (X8_update_task Fixtures.user1 Fixtures.db Fixtures.task2
                       data 9 true ltac:(split; compute_done)
                       ltac:(compute_done) ltac:(by right))
                ltac:(by vm_compute) ltac:(done))).
Defined.

(** X9. A task request that is not answered 200, 201 or 204 changes
    nothing, and GetTask changes nothing whatever its answer. *)
Theorem X9_failed_request_no_effect (op : Op) (db : DB) :
  match (run_op op db).1 with
  | HTTP_200_OK _ | HTTP_201_CREATED _ | HTTP_204_NO_CONTENT => True
  | _ => (run_op op db).2 = db
  end
  ∧ ∀ caller pk, (TaskDetailView.dispatch GetTask caller pk db).2 = db.
Proof.
  split.
  - destruct op as [caller data now|caller pk [|data now|data now|]]; simpl.
    + unfold TaskListCreateView.post.
      by destruct (TaskCreateUpdateSerializer.is_valid false data).
    + unfold TaskDetailView.get.
      by destruct (TaskDetailView.get_object _ _ _ _) as [?|[| | | |]].
    + unfold TaskDetailView.put, TaskDetailView.update.
      destruct (TaskDetailView.get_object _ _ _ _) as [?|[| | | |]]; try done.
      by destruct (TaskCreateUpdateSerializer.is_valid _ _).
    + unfold TaskDetailView.patch, TaskDetailView.update.
      destruct (TaskDetailView.get_object _ _ _ _) as [?|[| | | |]]; try done.
      by destruct (TaskCreateUpdateSerializer.is_valid _ _).
    + unfold TaskDetailView.delete.
      by destruct (TaskDetailView.get_object _ _ _ _) as [?|[| | | |]].
  - intros caller pk. simpl. unfold TaskDetailView.get.
    by destruct (TaskDetailView.get_object _ _ _ _).
Qed.

(** X10. CreateTask.  When the body is accepted (a title that is not
    blank once trimmed, and no null character in title or description),
    the answer is 201 and one row is appended: its key is the next key of
    the sequence, title and description are the trimmed body values, a
    missing description is the empty string and a missing [completed] is
    false, both timestamps are the time of the request, and the row joins
    the scoped set of its creator (and of any administrator) while the
    scoped set of every other user stays as it was.  When the body is not
    accepted the answer is 400 with the rejected fields, and nothing
    changes. *)
Theorem X10_create_task (caller : User) (data : TaskData) (now : Z) (db : DB) :
  (title_accepted false (data_title data) →
   description_accepted (data_description data) →
     let t := {| task_id := next_task_id db;
                 title := default "" (strip <$> data_title data);
                 description := default "" (strip <$> data_description data);
                 completed := default false (data_completed data);
                 created_at := now;
                 updated_at := now;
                 task_user := user_id caller |} in
     let db' := {| users := users db; tasks := (tasks db ++ [t])%list;
                   next_user_id := next_user_id db;
                   next_task_id := next_task_id db + 1 |} in
     TaskListCreateView.post caller data now db
     = (HTTP_201_CREATED (TaskFieldsRepr (title t, description t, completed t)),
        db')
     ∧ ∀ user,
         spec_scoped_set user db'
         = if decide (can_see user t) then (spec_scoped_set user db ++ [t])%list
           else spec_scoped_set user db)
  ∧ (¬ (title_accepted false (data_title data)
        ∧ description_accepted (data_description data)) →
     TaskListCreateView.post caller data now db
     = (HTTP_400_BAD_REQUEST (rejected_fields false data), db)).
Proof.
  split.
  - intros Htitle Hdescription t db'. split.
    + unfold TaskListCreateView.post. rewrite task_is_valid_spec.
      rewrite decide_True by done.
      unfold TaskListCreateView.perform_create,
        TaskCreateUpdateSerializer.create,
        TaskCreateUpdateSerializer.boolean_field. simpl.
      assert (default false
                match data_completed data with
                | Some b => Some b
                | None => if data_html data && true then Some false else None
                end = default false (data_completed data)) as ->; [|done].
      destruct (data_completed data); [done|]. by destruct (data_html data).
    + intros user. rewrite !spec_scoped_set_can_see. simpl.
      rewrite filter_app, filter_cons, filter_nil.
      destruct (decide (can_see user t)); [done|by rewrite app_nil_r].
  - intros Hrejected. unfold TaskListCreateView.post.
    rewrite task_is_valid_spec. by rewrite decide_False.
Qed.

(** TaskAPITest.test_create_task_invalid_data: a body with a description
    only is answered 400; so is a title that is a no-break space, and a
    title with a null character in it. *)
Lemma X10_create_task_witness :
  let body title :=
    {| data_html := true; data_title := title;
       data_description := Some "Task without title";
       data_completed := None; data_other := ∅ |} in
  TaskListCreateView.post Fixtures.user1 (body None) 9 Fixtures.db
  = (HTTP_400_BAD_REQUEST ["title"], Fixtures.db)
  ∧ TaskListCreateView.post Fixtures.user1 (body (Some (utf8 [194; 160]%N))) 9
      Fixtures.db
    = (HTTP_400_BAD_REQUEST ["title"], Fixtures.db)
  ∧ TaskListCreateView.post Fixtures.user1 (body (Some (utf8 [97; 0; 98]%N))) 9
      Fixtures.db
    = (HTTP_400_BAD_REQUEST ["title"], Fixtures.db).
Proof.
  intros body. split_and!.
  - rewrite (proj2 (X10_create_task Fixtures.user1 (body None) 9 Fixtures.db));
      [done|]. by intros [? _].
  - rewrite (proj2 (X10_create_task Fixtures.user1
                      (body (Some (utf8 [194; 160]%N))) 9 Fixtures.db));
      [done|]. by intros [[? _] _].
  - rewrite (proj2 (X10_create_task Fixtures.user1
                      (body (Some (utf8 [97; 0; 98]%N))) 9 Fixtures.db));
      [done|]. by intros [[_ ?] _].
Defined.

Lemma step_db (st : DB * gmap Z Z) (op : Op) :
  (step st op).1 = (run_op op st.1).2.
Proof.
  destruct st as [db creators]. unfold step. simpl.
  destruct (run_op op db) as [response db'] eqn:E.
  destruct op, response; reflexivity.
Qed.

Lemma db_wf_run_op (op : Op) (db : DB) : db_wf db → db_wf (run_op op db).2.
Proof.
  destruct op as [caller data now|caller pk request]; simpl.
  - apply db_wf_post.
  - apply db_wf_dispatch.
Qed.

(** X11. Every sequence of task requests keeps the tasks table well
    formed: the keys of its rows stay unique and below the next key of the
    sequence, so a key is never given to two tasks, also after deletions. *)
Theorem X11_run_keeps_keys_unique (db0 : DB) (ops : list Op) :
  db_wf db0 → db_wf (run db0 ops).1.
Proof.
  unfold run. generalize (∅ : gmap Z Z) as creators. revert db0.
  induction ops as [|op ops IH]; intros db0 creators Hwf; [done|].
  change (foldl step (db0, creators) (op :: ops))
    with (foldl step (step (db0, creators) op) ops).
  destruct (step (db0, creators) op) as [db1 creators1] eqn:Hstep.
  apply IH. pose proof (step_db (db0, creators) op) as Hdb.
  rewrite Hstep in Hdb. simpl in Hdb. rewrite Hdb. by apply db_wf_run_op.
Qed.

(** user1 deletes her task 2 and then creates a task: it gets key 4, not
    the key that was freed. *)
Lemma X11_run_keeps_keys_unique_witness :
  let ops :=
    [OnTask Fixtures.user1 2 DeleteTask;
     CreateTask Fixtures.user1
       {| data_html := true; data_title := Some "again";
          data_description := None;
          data_completed := None; data_other := ∅ |} 9] in
  db_wf (run Fixtures.db ops).1
  ∧ task_id <$> tasks (run Fixtures.db ops).1 = [1; 3; 4].
Proof.
  intros ops. split; [|by vm_compute].
  apply (X11_run_keeps_keys_unique Fixtures.db ops). split; compute_done.
Defined.

(** ** Statistics and the list view *)

Lemma get_without_page (caller : User) (params : QueryParams) (db : DB) :
  q_page params = None →
  ∃ page,
    TaskListCreateView.get caller params db = HTTP_200_OK page
    ∧ count page
      = TaskManager.count (TaskListCreateView.filter_queryset params
                             (TaskListCreateView.get_queryset caller db)).
Proof.
  intros Hpage. unfold TaskListCreateView.get.
  rewrite paginate_queryset_valid.
  - eexists. split; [reflexivity|]. reflexivity.
  - rewrite Hpage. simpl.
    pose proof (Paginator_num_pages_pos
                  (TaskListCreateView.filter_queryset params
                     (TaskListCreateView.get_queryset caller db))).
    lia.
Qed.

Lemma length_filter_completed (l : list Task) :
  (length (filter (λ t, completed t = true) l)
   + length (filter (λ t, completed t = false) l))%nat = length l.
Proof.
  pose proof (Permutation_length
                (filter_app_complement (λ t, completed t = true) l)) as Hsplit.
  rewrite length_app in Hsplit. rewrite <- Hsplit. do 2 f_equal.
  apply list_filter_iff. intros t. by destruct (completed t).
Qed.

(** X12. The statistics agree with the list view: [completed_tasks] is the
    count ListTasks reports for [completed=true], [pending_tasks] the count
    it reports for [completed=false], and [total_tasks] the count it reports
    with no filter; none of the three numbers is negative and the first two
    add up to the third. *)
Theorem X12_stats_agree_with_list {F : Type} `{FloatArith F}
    (caller : User) (db : DB) :
  ∃ (stats : Stats F) (page page_completed page_pending : Page),
    task_stats caller db = HTTP_200_OK stats
    ∧ TaskListCreateView.get caller no_params db = HTTP_200_OK page
    ∧ TaskListCreateView.get caller (with_completed true no_params) db
      = HTTP_200_OK page_completed
    ∧ TaskListCreateView.get caller (with_completed false no_params) db
      = HTTP_200_OK page_pending
    ∧ total_tasks stats = count page
    ∧ completed_tasks stats = count page_completed
    ∧ pending_tasks stats = count page_pending
    ∧ 0 ≤ completed_tasks stats ∧ 0 ≤ pending_tasks stats
    ∧ completed_tasks stats + pending_tasks stats = total_tasks stats.
Proof.
  destruct (get_without_page caller no_params db eq_refl) as (page & Hpage & Hc).
  destruct (get_without_page caller (with_completed true no_params) db eq_refl)
    as (page1 & Hpage1 & Hc1).
  destruct (get_without_page caller (with_completed false no_params) db eq_refl)
    as (page0 & Hpage0 & Hc0).
  pose proof (length_filter_completed (TaskListCreateView.get_queryset caller db))
    as Hsplit.
  change (TaskListCreateView.filter_queryset no_params
            (TaskListCreateView.get_queryset caller db))
    with (TaskListCreateView.get_queryset caller db) in Hc.
  change (TaskListCreateView.filter_queryset (with_completed true no_params)
            (TaskListCreateView.get_queryset caller db))
    with (filter (λ t, completed t = true)
            (TaskListCreateView.get_queryset caller db)) in Hc1.
  change (TaskListCreateView.filter_queryset (with_completed false no_params)
            (TaskListCreateView.get_queryset caller db))
    with (filter (λ t, completed t = false)
            (TaskListCreateView.get_queryset caller db)) in Hc0.
  unfold TaskManager.count in *.
  assert (∃ stats : Stats F,
    task_stats caller db = HTTP_200_OK stats
    ∧ total_tasks stats
      = Z.of_nat (length (TaskListCreateView.get_queryset caller db))
    ∧ completed_tasks stats
      = Z.of_nat (length (filter (λ t, completed t = true)
                            (TaskListCreateView.get_queryset caller db)))
    ∧ pending_tasks stats = total_tasks stats - completed_tasks stats)
    as (stats & Hstats & Htotal & Hdone & Hpending).
  { unfold task_stats, TaskManager.count.
    change (task_stats_queryset caller db)
      with (TaskListCreateView.get_queryset caller db).
    destruct (_ >? 0) eqn:Etotal.
    - unfold truediv. rewrite bool_decide_eq_false_2 by lia. simpl.
      eexists. split; [reflexivity|]. done.
    - simpl. eexists. split; [reflexivity|]. done. }
  exists stats, page, page1, page0.
  split_and!; try done; lia.
Qed.

(** ** Registration: what is created and what is rejected *)

Lemma required_field_inv `{AuthBackend} (name : string) (v : option string)
    (ok : string → bool) (x : string) :
  UserRegistrationSerializer.required_field name v ok = inl x →
  ∃ raw, v = Some raw ∧ x = strip raw ∧ strip raw ≠ "" ∧ ok (strip raw) = true
         ∧ has_nul (strip raw) = false.
Proof.
  unfold UserRegistrationSerializer.required_field.
  destruct v as [raw|]; [|done].
  case_bool_decide as Hblank; [done|].
  destruct (has_nul (strip raw)) eqn:Hnul; [done|].
  destruct (ok (strip raw)) eqn:Hok; [|done].
  intros [= <-]. by exists raw.
Qed.

Lemma required_field_inr `{AuthBackend} (name : string) (v : option string)
    (ok : string → bool) (e : list string) :
  UserRegistrationSerializer.required_field name v ok = inr e → e = [name].
Proof.
  unfold UserRegistrationSerializer.required_field.
  destruct v as [raw|]; [|by intros [= <-]].
  case_bool_decide; [by intros [= <-]|].
  destruct (has_nul (strip raw)); [by intros [= <-]|].
  destruct (ok (strip raw)); [done|by intros [= <-]].
Qed.

Lemma unique_email_true `{AuthBackend} (db : DB) (s : string) :
  UserRegistrationSerializer.unique_email db s = true ↔
  ∀ x, x ∈ users db → email x ≠ s.
Proof.
  unfold UserRegistrationSerializer.unique_email.
  by rewrite bool_decide_eq_true, Forall_forall.
Qed.

Lemma unique_username_true `{AuthBackend} (db : DB) (s : string) :
  UserRegistrationSerializer.unique_username db s = true ↔
  ∀ x, x ∈ users db → username x ≠ s.
Proof.
  unfold UserRegistrationSerializer.unique_username.
  by rewrite bool_decide_eq_true, Forall_forall.
Qed.

Lemma is_valid_inv `{AuthBackend} (db : DB) (data : RegistrationData)
    (attrs : RegistrationAttrs) :
  UserRegistrationSerializer.is_valid db data = inl attrs →
  ∃ u e p c,
    reg_username data = Some u ∧ reg_email data = Some e
    ∧ reg_password data = Some p ∧ reg_password_confirm data = Some c
    ∧ attrs = {| attrs_username := strip u; attrs_email := strip e;
                 attrs_password := strip p; attrs_password_confirm := strip c;
                 attrs_role :=
                   default "user" (UserRegistrationSerializer.role_value data) |}
    ∧ strip u ≠ "" ∧ valid_username (strip u) = true
    ∧ (∀ x, x ∈ users db → username x ≠ strip u)
    ∧ strip e ≠ "" ∧ valid_email (strip e) = true
    ∧ (∀ x, x ∈ users db → email x ≠ strip e)
    ∧ strip p ≠ "" ∧ validate_password (strip p) = true
    ∧ strip p = strip c
    ∧ (has_nul (strip u) = false ∧ has_nul (strip e) = false
       ∧ has_nul (strip p) = false)
    ∧ (attrs_role attrs = "admin" ∨ attrs_role attrs = "user").
Proof.
  unfold UserRegistrationSerializer.is_valid,
    UserRegistrationSerializer.to_internal_value.
  destruct (UserRegistrationSerializer.required_field "username" _ _)
    as [xu|] eqn:Hu; [|done].
  destruct (UserRegistrationSerializer.required_field "email" _ _)
    as [xe|] eqn:He; [|done].
  destruct (UserRegistrationSerializer.required_field "password" _ _)
    as [xp|] eqn:Hp; [|done].
  destruct (UserRegistrationSerializer.required_field "password_confirm" _ _)
    as [xc|] eqn:Hc; [|done].
  destruct (UserRegistrationSerializer.role_field _) as [r|] eqn:Hr; [|done].
  apply required_field_inv in Hu as (u & Hu & -> & Hu0 & Hu1 & Hun).
  apply required_field_inv in He as (e & He & -> & He0 & He1 & Hen).
  apply required_field_inv in Hp as (p & Hp & -> & Hp0 & Hp1 & Hpn).
  apply required_field_inv in Hc as (c & Hc & -> & Hc0 & _ & _).
  apply role_field_inl in Hr as [Hr Hchoice].
  apply andb_true_iff in Hu1 as [Hu1 Hu2]. apply andb_true_iff in He1 as [He1 He2].
  unfold UserRegistrationSerializer.validate. simpl.
  case_bool_decide as Hpc; [done|]. intros [= <-].
  exists u, e, p, c. simpl.
  split_and!; try done;
    first [ by apply unique_username_true
          | by apply unique_email_true
          | by rewrite Hr
          | by destruct (decide (strip p = strip c)) ].
Qed.

Lemma create_201_inv `{AuthBackend} (data : RegistrationData) (now : Z)
    (db : DB) (user : User) (db' : DB) :
  RegisterView.create data now db = (HTTP_201_CREATED user, db') →
  ∃ p,
    reg_password data = Some p ∧ strip p ≠ ""
    ∧ password user = make_password (strip p)
    ∧ users db' = (users db ++ [user])%list.
Proof.
  unfold RegisterView.create.
  destruct (UserRegistrationSerializer.is_valid db data) as [attrs|errors] eqn:Hv;
    [|done].
  apply is_valid_inv in Hv
    as (u & e & p & c & _ & _ & Hp & _ & -> & _ & _ & _ & _ & _ & _ & Hp0 & _).
  unfold UserRegistrationSerializer.create. simpl.
  destruct (_ && _); [|done]. intros [= <- <-]. by exists p.
Qed.

(** X13. A registration that is answered 201 met every check: the four
    required fields were given, not blank once trimmed and free of null
    characters, the two passwords agree, password, user name and e-mail
    address passed their validators, and no user of the table had that
    user name or e-mail address, as given or as normalised.  The user made
    has the next key of the sequence, the normalised name and address, the
    hashed password and the role asked for, one of "admin" and "user" (the
    role "user" when the request names none or sends it empty, which only
    a form can do), and is appended to the users table; the tasks table is
    not touched. *)
Theorem X13_register_created `{AuthBackend} (data : RegistrationData) (now : Z)
    (db : DB) (user : User) (db' : DB) :
  RegisterView.create data now db = (HTTP_201_CREATED user, db') →
  ∃ u e p c,
    reg_username data = Some u ∧ reg_email data = Some e
    ∧ reg_password data = Some p ∧ reg_password_confirm data = Some c
    ∧ strip p = strip c
    ∧ strip u ≠ "" ∧ strip e ≠ "" ∧ strip p ≠ ""
    ∧ has_nul (strip u) = false ∧ has_nul (strip e) = false
    ∧ has_nul (strip p) = false
    ∧ valid_username (strip u) = true ∧ valid_email (strip e) = true
    ∧ validate_password (strip p) = true
    ∧ user = {| user_id := next_user_id db;
                username := normalize_username (strip u);
                email := normalize_email (strip e);
                password := make_password (strip p);
                role := requested_role data;
                user_created_at := now;
                user_updated_at := now |}
    ∧ (role user = "admin" ∨ role user = "user")
    ∧ (reg_role data = Some "" → reg_html data = true)
    ∧ (∀ x, x ∈ users db →
         username x ≠ strip u ∧ username x ≠ username user
         ∧ email x ≠ strip e ∧ email x ≠ email user)
    ∧ db' = {| users := (users db ++ [user])%list; tasks := tasks db;
               next_user_id := next_user_id db + 1;
               next_task_id := next_task_id db |}.
Proof.
  unfold RegisterView.create.
  destruct (UserRegistrationSerializer.is_valid db data) as [attrs|errors] eqn:Hv;
    [|done].
  apply is_valid_inv in Hv
    as (u & e & p & c & Hu & He & Hp & Hc & -> & Hu0 & Hu1 & Hu2 & He0 & He1
        & He2 & Hp0 & Hp1 & Hpc & (Hun & Hen & Hpn) & Hchoice).
  unfold UserRegistrationSerializer.create. simpl.
  destruct (UserRegistrationSerializer.unique_username db _) eqn:Hnu; [|done].
  destruct (UserRegistrationSerializer.unique_email db _) eqn:Hne; [|done].
  simpl. intros [= <- <-].
  rewrite unique_username_true in Hnu. rewrite unique_email_true in Hne.
  simpl in Hchoice.
  assert (default "user" (UserRegistrationSerializer.role_value data)
          = requested_role data
          ∧ (reg_role data = Some "" → reg_html data = true)) as [Hrole Hform].
  { revert Hchoice.
    unfold UserRegistrationSerializer.role_value, requested_role.
    destruct (reg_role data) as [r|]; [|done].
    destruct (reg_html data); simpl; case_bool_decide as Hr; simpl; try done.
    - subst r. by intros [?|?].
    - intros _. split; [done|]. by intros [= ->]. }
  exists u, e, p, c. rewrite Hrole in *. split_and!; try done.
  intros x Hx. simpl. split_and!; auto.
Qed.

(** The registration of TaskAPITest's tables, with white space around the
    user name, a no-break space among it: the name is stored trimmed. *)
Lemma X13_register_created_witness :
  let data :=
    {| reg_html := true; reg_username := Some (utf8 [32; 101; 118; 101; 194; 160]%N);
       reg_email := Some "eve@example.com";
       reg_password := Some "testpass123";
       reg_password_confirm := Some "testpass123"; reg_role := None |} in
  ∃ user db',
    @RegisterView.create Fixtures.plain_backend data 7 Fixtures.db
      = (HTTP_201_CREATED user, db')
    ∧ username user = "eve" ∧ role user = "user" ∧ user_id user = 4.
Proof.
  intros data.
  destruct (@RegisterView.create Fixtures.plain_backend data 7 Fixtures.db)
    as [response db'] eqn:Hcreate.
  assert (∃ user, response = HTTP_201_CREATED user) as [user ->].
  { vm_compute in Hcreate. injection Hcreate as <- _. by eexists. }
  destruct (@X13_register_created Fixtures.plain_backend data 7 Fixtures.db
              user db' Hcreate)
    as (u & e & p & c & Hu & _ & _ & _ & _ & _ & _ & _ & _ & _ & _ & _ & _ & _
        & -> & _).
  injection Hu as <-. eexists _, db'. split; [reflexivity|]. by vm_compute.
Defined.

Lemma create_400 `{AuthBackend} (data : RegistrationData) (now : Z) (db : DB)
    (errors : list string) :
  UserRegistrationSerializer.is_valid db data = inr errors →
  RegisterView.create data now db = (HTTP_400_BAD_REQUEST errors, db).
Proof. intros Hv. unfold RegisterView.create. by rewrite Hv. Qed.

Lemma to_internal_value_errors `{AuthBackend} (db : DB) (data : RegistrationData)
    (name : string) :
  name ∈ errors_of
           (UserRegistrationSerializer.required_field "username"
              (reg_username data)
              (λ s, valid_username s
                    && UserRegistrationSerializer.unique_username db s))
  ∨ name ∈ errors_of
             (UserRegistrationSerializer.required_field "email"
                (reg_email data)
                (λ s, valid_email s
                      && UserRegistrationSerializer.unique_email db s))
  ∨ name ∈ errors_of
             (UserRegistrationSerializer.required_field "password"
                (reg_password data) validate_password)
  ∨ name ∈ errors_of
             (UserRegistrationSerializer.required_field "password_confirm"
                (reg_password_confirm data) (λ _, true))
  ∨ name ∈ errors_of
             (UserRegistrationSerializer.role_field
                (UserRegistrationSerializer.role_value data)) →
  ∃ errors,
    UserRegistrationSerializer.is_valid db data = inr errors ∧ name ∈ errors.
Proof.
  unfold UserRegistrationSerializer.is_valid,
    UserRegistrationSerializer.to_internal_value.
  destruct (UserRegistrationSerializer.required_field "username" _ _) as [?|eu];
    destruct (UserRegistrationSerializer.required_field "email" _ _) as [?|ee];
    destruct (UserRegistrationSerializer.required_field "password" _ _) as [?|ep];
    destruct (UserRegistrationSerializer.required_field "password_confirm" _ _)
      as [?|ec];
    destruct (UserRegistrationSerializer.role_field _) as [?|er];
    simpl; intros Hname.
  all: try (eexists; split; [reflexivity|];
            rewrite ?elem_of_app, ?elem_of_nil in *; tauto).
  exfalso. rewrite !elem_of_nil in Hname. tauto.
Qed.

(** X14. What registration rejects, each time with 400 and with the
    database left as it is: a password or a confirmation that is missing,
    blank once trimmed or holds a null character (named in the errors), an
    e-mail address or a user name that a user of the table has (named), a
    role other than "admin" and "user" (named; the empty role only in a
    JSON body, a form that sends it empty is read as naming none), and two
    passwords that differ once trimmed.  More generally, whenever the
    answer is not 201 the database is unchanged. *)
Theorem X14_register_rejected `{AuthBackend} (data : RegistrationData) (now : Z)
    (db : DB) :
  ((∀ user, (RegisterView.create data now db).1 ≠ HTTP_201_CREATED user) →
     (RegisterView.create data now db).2 = db)
  ∧ (∀ p c, reg_password data = Some p → reg_password_confirm data = Some c →
       strip p ≠ strip c →
       ∃ errors,
         RegisterView.create data now db = (HTTP_400_BAD_REQUEST errors, db))
  ∧ (∀ e x, reg_email data = Some e → x ∈ users db → email x = strip e →
       ∃ errors,
         RegisterView.create data now db = (HTTP_400_BAD_REQUEST errors, db)
         ∧ "email" ∈ errors)
  ∧ (∀ u x, reg_username data = Some u → x ∈ users db → username x = strip u →
       ∃ errors,
         RegisterView.create data now db = (HTTP_400_BAD_REQUEST errors, db)
         ∧ "username" ∈ errors)
  ∧ (∀ r, reg_role data = Some r → r ≠ "admin" → r ≠ "user" →
       (r = "" → reg_html data = false) →
       ∃ errors,
         RegisterView.create data now db = (HTTP_400_BAD_REQUEST errors, db)
         ∧ "role" ∈ errors)
  ∧ (from_option (λ p, strip p = "" ∨ has_nul (strip p) = true) True
       (reg_password data) →
       ∃ errors,
         RegisterView.create data now db = (HTTP_400_BAD_REQUEST errors, db)
         ∧ "password" ∈ errors)
  ∧ (from_option (λ c, strip c = "" ∨ has_nul (strip c) = true) True
       (reg_password_confirm data) →
       ∃ errors,
         RegisterView.create data now db = (HTTP_400_BAD_REQUEST errors, db)
         ∧ "password_confirm" ∈ errors).
Proof.
  split_and!.
  - unfold RegisterView.create.
    destruct (UserRegistrationSerializer.is_valid db data) as [attrs|errors];
      [|done].
    destruct (UserRegistrationSerializer.create attrs now db) as [[user db']|];
      [|done].
    intros Hnot. by destruct (Hnot user).
  - intros p c Hp Hc Hpc.
    destruct (UserRegistrationSerializer.is_valid db data) as [attrs|errors] eqn:Hv.
    + apply is_valid_inv in Hv
        as (u & e & p' & c' & _ & _ & Hp' & Hc' & _ & _ & _ & _ & _ & _ & _ & _
            & _ & Heq & _).
      congruence.
    + exists errors. by apply create_400.
  - intros e x He Hx Hemail.
    destruct (to_internal_value_errors db data "email") as (errors & Hv & Hin).
    + right. left. unfold UserRegistrationSerializer.required_field.
      rewrite He. case_bool_decide; [simpl; by left|].
      destruct (has_nul (strip e)); [simpl; by left|].
      replace (UserRegistrationSerializer.unique_email db (strip e)) with false.
      * rewrite andb_false_r. simpl. by left.
      * symmetry. apply not_true_iff_false. rewrite unique_email_true.
        intros Hall. by apply (Hall x Hx).
    + exists errors. split; [by apply create_400|done].
  - intros u x Hu Hx Hname.
    destruct (to_internal_value_errors db data "username") as (errors & Hv & Hin).
    + left. unfold UserRegistrationSerializer.required_field.
      rewrite Hu. case_bool_decide; [simpl; by left|].
      destruct (has_nul (strip u)); [simpl; by left|].
      replace (UserRegistrationSerializer.unique_username db (strip u)) with false.
      * rewrite andb_false_r. simpl. by left.
      * symmetry. apply not_true_iff_false. rewrite unique_username_true.
        intros Hall. by apply (Hall x Hx).
    + exists errors. split; [by apply create_400|done].
  - intros r Hr Hadmin Huser Hjson.
    destruct (to_internal_value_errors db data "role") as (errors & Hv & Hin).
    + do 4 right.
      assert (UserRegistrationSerializer.role_value data = Some r) as ->.
      { unfold UserRegistrationSerializer.role_value. rewrite Hr.
        case_bool_decide as Hempty; [|by rewrite andb_false_r].
        by rewrite (Hjson Hempty). }
      unfold UserRegistrationSerializer.role_field.
      rewrite bool_decide_eq_false_2; [simpl; by left|].
      unfold ROLE_CHOICES. simpl. rewrite !elem_of_cons, elem_of_nil. tauto.
    + exists errors. split; [by apply create_400|done].
  - intros Hp.
    destruct (to_internal_value_errors db data "password") as (errors & Hv & Hin).
    + right. right. left. unfold UserRegistrationSerializer.required_field.
      destruct (reg_password data) as [p|]; simpl in *; [|by left].
      case_bool_decide as Hblank; [simpl; by left|].
      destruct Hp as [Hp|Hp]; [done|]. rewrite Hp. simpl. by left.
    + exists errors. split; [by apply create_400|done].
  - intros Hc.
    destruct (to_internal_value_errors db data "password_confirm")
      as (errors & Hv & Hin).
    + do 3 right. left. unfold UserRegistrationSerializer.required_field.
      destruct (reg_password_confirm data) as [c|]; simpl in *; [|by left].
      case_bool_decide as Hblank; [simpl; by left|].
      destruct Hc as [Hc|Hc]; [done|]. rewrite Hc. simpl. by left.
    + exists errors. split; [by apply create_400|done].
Qed.

(** AuthenticationTest.test_user_registration_duplicate_email, on the
    tables of TaskAPITest: the address of user1 is taken.  And a password
    of eight no-break spaces is blank. *)
Lemma X14_register_rejected_witness :
  let data password :=
    {| reg_html := true; reg_username := Some "testuser";
       reg_email := Some "user1@example.com";
       reg_password := Some password;
       reg_password_confirm := Some password; reg_role := None |} in
  (∃ errors,
     @RegisterView.create Fixtures.plain_backend (data "testpass123") 7
       Fixtures.db
       = (HTTP_400_BAD_REQUEST errors, Fixtures.db)
     ∧ "email" ∈ errors)
  ∧ (∃ errors,
       @RegisterView.create Fixtures.plain_backend
         (data (utf8 [194; 160; 194; 160; 194; 160; 194; 160;
                      194; 160; 194; 160; 194; 160; 194; 160]%N)) 7
         Fixtures.db
         = (HTTP_400_BAD_REQUEST errors, Fixtures.db)
       ∧ "password" ∈ errors).
Proof.
  intros data. split.
  - apply (proj1 (proj2 (proj2
             (@X14_register_rejected Fixtures.plain_backend
                (data "testpass123") 7 Fixtures.db)))
             "user1@example.com" Fixtures.user1).
    + reflexivity.
    + compute_done.
    + reflexivity.
  - apply (proj1 (proj2 (proj2 (proj2 (proj2 (proj2
             (@X14_register_rejected Fixtures.plain_backend
                (data (utf8 [194; 160; 194; 160; 194; 160; 194; 160;
                             194; 160; 194; 160; 194; 160; 194; 160]%N)) 7
                Fixtures.db))))))).
    simpl. left. by vm_compute.
Defined.

Lemma NoDup_fmap_snoc {A B} (f : A → B) (l : list A) (x : A) :
  NoDup (f <$> l) → (∀ y, y ∈ l → f y ≠ f x) → NoDup (f <$> (l ++ [x])%list).
Proof.
  intros Hl Hx. rewrite fmap_app. apply NoDup_app. split_and!; [done| |].
  - intros b (y & -> & Hy)%list_elem_of_fmap Hin. simpl in Hin.
    apply list_elem_of_singleton in Hin. by apply (Hx y).
  - apply NoDup_singleton.
Qed.

Lemma users_wf_create `{AuthBackend} (data : RegistrationData) (now : Z) (db : DB) :
  users_wf db → users_wf (RegisterView.create data now db).2.
Proof.
  intros (Hemail & Hname & Hid & Hbound).
  unfold RegisterView.create.
  destruct (UserRegistrationSerializer.is_valid db data) as [attrs|errors];
    [|done].
  unfold UserRegistrationSerializer.create.
  destruct (UserRegistrationSerializer.unique_username db _) eqn:Hnu; [|done].
  destruct (UserRegistrationSerializer.unique_email db _) eqn:Hne; [|done].
  simpl. rewrite unique_username_true in Hnu. rewrite unique_email_true in Hne.
  rewrite Forall_forall in Hbound.
  split_and!; simpl.
  - apply NoDup_fmap_snoc; [done|]. intros y Hy. by apply Hne.
  - apply NoDup_fmap_snoc; [done|]. intros y Hy. by apply Hnu.
  - apply NoDup_fmap_snoc; [done|]. intros y Hy. simpl.
    specialize (Hbound y Hy). lia.
  - apply Forall_app. split.
    + apply Forall_forall. intros y Hy. specialize (Hbound y Hy). simpl in *. lia.
    + apply Forall_singleton. simpl. lia.
Qed.

(** X15. Registration keeps the users table well formed, whatever the
    requests: after any sequence of registrations no two users share an
    e-mail address, a user name or a key, and the tasks table is as it
    was. *)
Theorem X15_register_keeps_users_unique `{AuthBackend}
    (requests : list (RegistrationData * Z)) (db : DB) :
  users_wf db →
  let db' := foldl (λ d r, (RegisterView.create r.1 r.2 d).2) db requests in
  users_wf db' ∧ tasks db' = tasks db ∧ next_task_id db' = next_task_id db.
Proof.
  revert db. induction requests as [|[data now] requests IH]; intros db Hwf;
    [done|].
  simpl. destruct (IH (RegisterView.create data now db).2) as (Hwf' & Ht & Hn).
  { by apply users_wf_create. }
  split_and!; [done| |].
  - rewrite Ht. unfold RegisterView.create.
    destruct (UserRegistrationSerializer.is_valid db data) as [attrs|errors];
      [|done].
    unfold UserRegistrationSerializer.create. by destruct (_ && _).
  - rewrite Hn. unfold RegisterView.create.
    destruct (UserRegistrationSerializer.is_valid db data) as [attrs|errors];
      [|done].
    unfold UserRegistrationSerializer.create. by destruct (_ && _).
Qed.

(** Two registrations with the same e-mail address against the tables of
    TaskAPITest: the second is rejected and four users are in the table. *)
Lemma X15_register_keeps_users_unique_witness :
  let data :=
    {| reg_html := true; reg_username := Some "eve";
       reg_email := Some "eve@example.com";
       reg_password := Some "testpass123";
       reg_password_confirm := Some "testpass123"; reg_role := None |} in
  let db' := foldl (λ d r, (@RegisterView.create Fixtures.plain_backend
                              r.1 r.2 d).2) Fixtures.db [(data, 7); (data, 8)] in
  users_wf db' ∧ length (users db') = 4%nat.
Proof.
  intros data db'. split; [|by vm_compute].
  apply (@X15_register_keeps_users_unique Fixtures.plain_backend
           [(data, 7); (data, 8)] Fixtures.db).
  repeat split; compute_done.
Defined.

(** ** Login *)

Section LoginProperties.
Variable check_password : string → string → bool.

Lemma filter_email_unique (l : list User) (user : User) :
  NoDup (email <$> l) → user ∈ l →
  filter (λ u, email u = email user) l = [user].
Proof.
  induction l as [|x l IH]; simpl; [by intros _ ?%elem_of_nil|].
  rewrite NoDup_cons. intros [Hx Hl] Hu.
  apply elem_of_cons in Hu as [->|Hu].
  - rewrite filter_cons_True by done. f_equal.
    apply filter_nil_Forall. intros y Hy Hemail.
    destruct Hx. rewrite <- Hemail. by apply list_elem_of_fmap_2.
  - rewrite filter_cons_False; [by apply IH|].
    intros Hemail. destruct Hx. rewrite Hemail. by apply list_elem_of_fmap_2.
Qed.

Lemma truthy_Some (v : option string) (s : string) :
  truthy v = Some s ↔ v = Some s ∧ s ≠ "".
Proof.
  unfold truthy. destruct v as [s'|]; [|split; [done|by intros [? _]]].
  case_bool_decide as Hblank.
  - split; [done|]. intros [[= ->] Hs]. done.
  - split; [by intros [= ->]|]. by intros [[= ->] _].
Qed.

(** X16. Login.  A request without an e-mail address or without a
    password, or with an empty one, is answered 400 whatever the users
    table holds.  A 200 answer carries a user of the table whose e-mail
    address is exactly the one given and whose stored hash the given
    password checks against.  Over a users table with unique addresses the
    answer for the address of a user of the table is 200 with that user when
    the password checks and 401 when it does not, and an address no user has
    is answered 401. *)
Theorem X16_login (data : LoginData) (db : DB) :
  (truthy (login_email data) = None ∨ truthy (login_password data) = None →
     login_view check_password data db = LOGIN_400_BAD_REQUEST)
  ∧ (∀ user,
       login_view check_password data db = LOGIN_200_OK user →
       user ∈ users db
       ∧ login_email data = Some (email user)
       ∧ ∃ p, login_password data = Some p
              ∧ check_password p (password user) = true)
  ∧ (∀ user p,
       users_wf db → user ∈ users db →
       login_email data = Some (email user) → email user ≠ "" →
       login_password data = Some p → p ≠ "" →
       login_view check_password data db
       = if check_password p (password user) then LOGIN_200_OK user
         else LOGIN_401_UNAUTHORIZED)
  ∧ (∀ e p,
       login_email data = Some e → e ≠ "" →
       login_password data = Some p → p ≠ "" →
       (∀ user, user ∈ users db → email user ≠ e) →
       login_view check_password data db = LOGIN_401_UNAUTHORIZED).
Proof.
  split_and!.
  - unfold login_view. intros [-> | Hp]; [done|].
    rewrite Hp. by destruct (truthy (login_email data)).
  - intros user. unfold login_view, authenticate.
    destruct (truthy (login_email data)) as [e|] eqn:He; [|done].
    destruct (truthy (login_password data)) as [p|] eqn:Hp; [|done].
    apply truthy_Some in He as [He _]. apply truthy_Some in Hp as [Hp _].
    destruct (filter _ _) as [|x [|y l]] eqn:E; [done| |done].
    destruct (check_password p (password x)) eqn:Hcheck; [|done].
    intros [= ->].
    assert (user ∈ filter (λ u, email u = e) (users db)) as Hin
      by (rewrite E; left).
    apply list_elem_of_filter in Hin as [<- Hin].
    split_and!; [done..|]. by exists p.
  - intros user p (Hemails & _) Huser He He0 Hp Hp0.
    unfold login_view, authenticate.
    rewrite (proj2 (truthy_Some _ (email user))) by done.
    rewrite (proj2 (truthy_Some _ p)) by done.
    rewrite filter_email_unique by done.
    by destruct (check_password p (password user)).
  - intros e p He He0 Hp Hp0 Hnone.
    unfold login_view, authenticate.
    rewrite (proj2 (truthy_Some _ e)) by done.
    rewrite (proj2 (truthy_Some _ p)) by done.
    rewrite filter_nil_Forall; [done|]. intros x Hx. by apply Hnone.
Qed.
End LoginProperties.

(** AuthenticationTest.test_user_login with a hasher that stores the
    password as it is: user1 logs in with her address and password. *)
Lemma X16_login_witness :
  login_view String.eqb
    {| login_email := Some "user1@example.com";
       login_password := Some "testpass123" |} Fixtures.db
  = LOGIN_200_OK Fixtures.user1.
Proof.
  apply (proj1 (proj2 (proj2
           (X16_login String.eqb
              {| login_email := Some "user1@example.com";
                 login_password := Some "testpass123" |} Fixtures.db)))
           Fixtures.user1 "testpass123").
  - repeat split; compute_done.
  - compute_done.
  - reflexivity.
  - done.
  - reflexivity.
  - done.
Defined.

Lemma login_view_user (check_password : string → string → bool)
    (db : DB) (user : User) (p : string) :
  users_wf db → user ∈ users db → email user ≠ "" → p ≠ "" →
  login_view check_password
    {| login_email := Some (email user); login_password := Some p |} db
  = if check_password p (password user) then LOGIN_200_OK user
    else LOGIN_401_UNAUTHORIZED.
Proof.
  intros (Hemails & _) Huser He Hp. unfold login_view, authenticate. simpl.
  rewrite !bool_decide_eq_false_2 by done.
  rewrite filter_email_unique by done.
  by destruct (check_password p (password user)).
Qed.

(** X17. Registration and login round trip.  With a hasher whose check
    accepts every password against its own hash, over a users table with
    unique addresses: a user that registration has just created logs in,
    with the address as stored (normalised) and the password as given up to
    surrounding white space, and is answered 200 with that same user; with
    a password the stored hash does not check against, the answer is 401. *)
Theorem X17_register_then_login `{AuthBackend}
    (check_password : string → string → bool) (data : RegistrationData)
    (now : Z) (db : DB) (user : User) (db' : DB) (p : string) :
  (∀ raw, check_password raw (make_password raw) = true) →
  users_wf db →
  RegisterView.create data now db = (HTTP_201_CREATED user, db') →
  reg_password data = Some p →
  email user ≠ "" →
  login_view check_password
    {| login_email := Some (email user); login_password := Some (strip p) |} db'
  = LOGIN_200_OK user
  ∧ ∀ wrong,
      wrong ≠ "" → check_password wrong (password user) = false →
      login_view check_password
        {| login_email := Some (email user); login_password := Some wrong |} db'
      = LOGIN_401_UNAUTHORIZED.
Proof.
  intros Hhasher Hwf Hcreate Hp Hemail.
  pose proof (users_wf_create data now db Hwf) as Hwf'.
  rewrite Hcreate in Hwf'. simpl in Hwf'.
  destruct (create_201_inv data now db user db' Hcreate)
    as (p' & Hp' & Hp0 & Hhash & Hdb).
  assert (p' = p) as -> by congruence.
  assert (user ∈ users db') as Hin.
  { rewrite Hdb. apply elem_of_app. right. left. }
  split.
  - rewrite login_view_user by done. by rewrite Hhash, Hhasher.
  - intros wrong Hwrong Hcheck. rewrite login_view_user by done.
    by rewrite Hcheck.
Qed.

(** Registration, then login with the password typed with a trailing
    space, with a hasher that stores the password as it is. *)
Lemma X17_register_then_login_witness :
  let data :=
    {| reg_html := true; reg_username := Some "testuser";
       reg_email := Some "test@example.com";
       reg_password := Some "testpass123 ";
       reg_password_confirm := Some "testpass123"; reg_role := None |} in
  ∃ user db',
    @RegisterView.create Fixtures.plain_backend data 7 empty_db
      = (HTTP_201_CREATED user, db')
    ∧ login_view String.eqb
        {| login_email := Some "test@example.com";
           login_password := Some "testpass123" |} db'
      = LOGIN_200_OK user.
Proof.
  intros data.
  destruct (@RegisterView.create Fixtures.plain_backend data 7 empty_db)
    as [response db'] eqn:Hcreate.
  assert (∃ user, response = HTTP_201_CREATED user
                  ∧ email user = "test@example.com") as (user & -> & Hemail).
  { vm_compute in Hcreate. injection Hcreate as <- _. by eexists. }
  exists user, db'. split; [done|].
  rewrite <- Hemail.
  apply (proj1 (@X17_register_then_login Fixtures.plain_backend String.eqb
                  data 7 empty_db user db' "testpass123 "
                  (λ raw, String.eqb_refl raw)
                  ltac:(repeat split; constructor) Hcreate eq_refl
                  ltac:(by rewrite Hemail))).
Defined.

(** ** Walking the pages *)

Lemma join_chunks {A} (l : list A) (n k : nat) :
  mjoin ((λ i, take n (drop (n * i) l)) <$> seq 0 k) = take (n * k) l.
Proof.
  induction k as [|k IH].
  - simpl. by rewrite Nat.mul_0_r.
  - rewrite seq_S, fmap_app, join_app, IH. simpl. rewrite app_nil_r.
    rewrite take_take_drop. f_equal. lia.
Qed.

(** X18. The pages of a listing partition it: for any caller and filters,
    the results of pages 1 to the last page, one after the other, are the
    filtered scoped set, every row once and in order. *)
Theorem X18_pages_partition (caller : User) (params : QueryParams) (db : DB) :
  all_pages caller params db
  = TaskListCreateView.filter_queryset params
      (TaskListCreateView.get_queryset caller db).
Proof.
  unfold all_pages.
  set (qs := TaskListCreateView.filter_queryset params
               (TaskListCreateView.get_queryset caller db)).
  set (last := Paginator.num_pages qs PAGE_SIZE).
  rewrite <- list_fmap_compose.
  rewrite (list_fmap_ext _ (λ i, take 20 (drop (20 * i) qs))).
  - rewrite join_chunks. apply take_ge.
    pose proof (proj1 (Paginator_num_pages_spec qs last) eq_refl) as (H1 & _ & H2).
    unfold PAGE_SIZE in H2. lia.
  - intros i n Hn. apply lookup_seq in Hn as [-> Hi]. simpl.
    unfold page_results, TaskListCreateView.get.
    change (TaskListCreateView.filter_queryset (with_page _ params)
              (TaskListCreateView.get_queryset caller db)) with qs.
    rewrite paginate_queryset_valid by (simpl; fold last; lia).
    simpl. do 2 f_equal. unfold PAGE_SIZE. lia.
Qed.
